(** * Helper managers of [@ember/-internals/glimmer/lib/helper.ts]

    A shallow embedding of the two helper managers (the classic, class based
    one and the simple, function based one), of [Helper.init] and
    [Helper.recompute], and of the JavaScript object store they work on.

    JavaScript values are first order: an object or a function is an address
    into the store, and the body of a user function is looked up in a code
    table that the development is parametric in.  A computation threads the
    store and may end in an exception. *)

From Stdlib Require Import ZArith.
From stdpp Require Import base gmap strings list pretty.

Local Open Scope Z_scope.

(** ** JavaScript values and objects *)

Module JS.

(** Address of an object in the store. *)
Definition loc := positive.
(** Identity of a [DirtyableTag] of [@glimmer/validator]. *)
Definition tag := positive.
(** Index of a user function body in the code table. *)
Definition fid := nat.

Inductive value : Type :=
| VUndefined
| VNull
| VBool (b : bool)
| VNumber (n : Z)
| VString (s : string)
| VObject (l : loc).

#[global] Instance value_eq_dec : EqDecision value.
Proof. solve_decision. Defined.

(** An object: its string keyed properties as they are read through the
    prototype chain, its [[Call]] slot when it is a function, and the two
    symbol keyed slots this file deals with: [RECOMPUTE_TAG] and the owner
    symbol written by [setOwner]. *)
Record object : Type := Object {
  props : gmap string value;
  callable : option fid;
  recompute_tag : option tag;
  owner : option value
}.

#[global] Instance object_eq_dec : EqDecision object.
Proof. solve_decision. Defined.

(** The object literal [{}]. *)
Definition empty_object : object :=
  {| props := ∅; callable := None; recompute_tag := None; owner := None |}.

(** An object literal with the given properties. *)
Definition literal (ps : list (string * value)) : object :=
  {| props := list_to_map ps; callable := None;
     recompute_tag := None; owner := None |}.

(** A function object whose body is entry [f] of the code table. *)
Definition function_object (f : fid) : object :=
  {| props := ∅; callable := Some f; recompute_tag := None; owner := None |}.

Definition set_prop (k : string) (v : value) (o : object) : object :=
  {| props := <[k := v]> (props o); callable := callable o;
     recompute_tag := recompute_tag o; owner := owner o |}.

Definition set_recompute_tag (t : option tag) (o : object) : object :=
  {| props := props o; callable := callable o;
     recompute_tag := t; owner := owner o |}.

Definition set_owner_slot (v : value) (o : object) : object :=
  {| props := props o; callable := callable o;
     recompute_tag := recompute_tag o; owner := Some v |}.

(** Calls on the tag primitives, in program order. *)
Inductive event : Type :=
| EvCreateTag (t : tag)
| EvDirtyTag (t : tag)
| EvConsumeTag (t : option tag).

#[global] Instance event_eq_dec : EqDecision event.
Proof. solve_decision. Defined.

(** The closure [() => dirtyTag(this[RECOMPUTE_TAG])] that [recompute] hands
    to [join]: it captures [this] and reads the slot when it runs. *)
Inductive action : Type :=
| DirtyRecomputeTag (this : value).

#[global] Instance action_eq_dec : EqDecision action.
Proof. solve_decision. Defined.

(** The state a computation runs in: the object store, the revision of every
    tag with the global revision counter, the log of calls on the tag
    primitives, and the actions the run loop holds until it flushes. *)
Record world : Type := World {
  heap : gmap loc object;
  tags : gmap tag nat;
  clock : nat;
  trace : list event;
  queue : list action
}.

Definition empty_world : world :=
  {| heap := ∅; tags := ∅; clock := 0%nat; trace := []; queue := [] |}.

Definition with_heap (h : gmap loc object) (w : world) : world :=
  {| heap := h; tags := tags w; clock := clock w;
     trace := trace w; queue := queue w |}.

Definition with_queue (q : list action) (w : world) : world :=
  {| heap := heap w; tags := tags w; clock := clock w;
     trace := trace w; queue := q |}.

Definition log (e : event) (w : world) : world :=
  {| heap := heap w; tags := tags w; clock := clock w;
     trace := trace w ++ [e]; queue := queue w |}.

(** JavaScript has no dangling reference; an address that was never
    allocated reads as an object without properties. *)
Definition object_at (w : world) (l : loc) : object :=
  default empty_object (heap w !! l).

Definition recompute_tag_of (w : world) (l : loc) : option tag :=
  recompute_tag (object_at w l).

(** ** Computations *)

Inductive exn : Type :=
| TypeError
| AssertionError (message : string)
| Error (message : string)
| Thrown (v : value).

Inductive outcome (A : Type) : Type :=
| Ok (a : A)
| Throw (e : exn).
Arguments Ok {A} a.
Arguments Throw {A} e.

Definition M (A : Type) : Type := world -> outcome A * world.

Definition ret {A} (a : A) : M A := fun w => (Ok a, w).
Definition throw {A} (e : exn) : M A := fun w => (Throw e, w).
Definition bind {A B} (m : M A) (k : A -> M B) : M B :=
  fun w => match m w with
           | (Ok a, w') => k a w'
           | (Throw e, w') => (Throw e, w')
           end.

Notation "'let*' x ':=' m 'in' k" := (bind m (fun x => k))
  (at level 10, x pattern, m at level 100, k at level 200).
Notation "m ';;' k" := (bind m (fun _ => k))
  (at level 100, k at level 200, right associativity).

Definition get_world : M world := fun w => (Ok w, w).
Definition modify (f : world -> world) : M unit := fun w => (Ok tt, f w).

(** [typeof v], for the two answers this file compares against. *)
Definition typeof (w : world) (v : value) : string :=
  match v with
  | VUndefined => "undefined"
  | VNull => "object"
  | VBool _ => "boolean"
  | VNumber _ => "number"
  | VString _ => "string"
  | VObject l => if callable (object_at w l) is Some _ then "function" else "object"
  end.

(** Truthiness, as used by [||] and by [assert]. *)
Definition truthy (v : value) : bool :=
  match v with
  | VUndefined | VNull => false
  | VBool b => b
  | VNumber n => negb (n =? 0)
  | VString s => negb (String.eqb s "")
  | VObject _ => true
  end.

(** The value [v[k]] has in [w] when [v] is not [undefined] or [null]. *)
Definition field (w : world) (v : value) (k : string) : value :=
  match v with
  | VObject l => default VUndefined (props (object_at w l) !! k)
  | _ => VUndefined
  end.

(** [v[k]]: a [TypeError] on [undefined] and [null]; a primitive has none of
    the properties this file reads. *)
Definition get_prop (v : value) (k : string) : M value :=
  fun w => match v with
           | VUndefined | VNull => (Throw TypeError, w)
           | _ => (Ok (field w v k), w)
           end.

(** [k in v]: a [TypeError] unless [v] is an object. *)
Definition has_prop (k : string) (v : value) : M bool :=
  fun w => match v with
           | VObject l => (Ok (bool_decide (is_Some (props (object_at w l) !! k))), w)
           | _ => (Throw TypeError, w)
           end.

(** Allocation of a new object. *)
Definition alloc (o : object) : M loc :=
  fun w => let l := fresh (dom (heap w)) in
           (Ok l, with_heap (<[l := o]> (heap w)) w).

(** In-place update of the object at [l]. *)
Definition update_object (l : loc) (f : object -> object) : M unit :=
  fun w => (Ok tt, with_heap (<[l := f (object_at w l)]> (heap w)) w).

End JS.

Import JS.

(** ** The collaborators this file imports *)

Module Validator.

(** Modelled from the spec: [createTag] of [@glimmer/validator], which is not
    part of this file.  The spec gives [createTag() -> Tag]; a tag is a new
    token, so it gets an identity that no existing tag has, and starts at
    revision zero. *)
Definition createTag : M tag :=
  fun w => let t := fresh (dom (tags w)) in
           (Ok t, {| heap := heap w; tags := <[t := 0%nat]> (tags w);
                     clock := clock w; trace := trace w ++ [EvCreateTag t];
                     queue := queue w |}).

(** Modelled from the spec: [dirtyTag] of [@glimmer/validator]: marks the tag
    dirty, here by moving it to a new global revision.  The argument is what
    [this[RECOMPUTE_TAG]] evaluates to; on [undefined] the primitive
    dereferences it and raises a [TypeError]. *)
Definition dirtyTag (t : option tag) : M unit :=
  fun w => match t with
           | Some t => (Ok tt, {| heap := heap w;
                                  tags := <[t := S (clock w)]> (tags w);
                                  clock := S (clock w);
                                  trace := trace w ++ [EvDirtyTag t];
                                  queue := queue w |})
           | None => (Throw TypeError, w)
           end.

(** Modelled from the spec: [consumeTag] of [@glimmer/validator]: records a
    read of the tag.  The record is the log entry. *)
Definition consumeTag (t : option tag) : M unit :=
  modify (log (EvConsumeTag t)).

End Validator.

Module Debug.

(** Modelled from the spec: [assert] of [@ember/debug], a fatal assertion:
    it raises when the condition does not hold. *)
Definition assert (desc : string) (cond : bool) : M unit :=
  if cond then ret tt else throw (AssertionError desc).

End Debug.

Module Owner.

(** Modelled from the spec: [setOwner] of [@ember/-internals/owner], the
    spec's [attachOwner(target, owner)]: it writes the owner back-reference
    on the target. *)
Definition setOwner (target : value) (o : value) : M unit :=
  match target with
  | VObject l => update_object l (set_owner_slot o)
  | _ => throw TypeError
  end.

Definition owner_of (w : world) (v : value) : option value :=
  match v with
  | VObject l => owner (object_at w l)
  | _ => None
  end.

End Owner.

Module Manager.

(** The options object given to [helperCapabilities]; a flag that is not
    written in the literal is absent. *)
Record options : Type := Options {
  opt_hasValue : option bool;
  opt_hasDestroyable : option bool
}.

(** The capability descriptor of the spec's data model. *)
Record capabilities : Type := Capabilities {
  version : string;
  hasValue : bool;
  hasDestroyable : bool
}.

Section Capabilities.

(** The protocol revisions the capability builder recognises. *)
Variable recognized : string -> bool.

(** Modelled from the spec: [helperCapabilities] of [@glimmer/manager]:
    given a version string and the optional feature flags it returns the
    descriptor, and fails when the version is not a recognised revision.  A
    flag that is not declared is false. *)
Definition helperCapabilities (managerAPI : string) (o : options)
  : outcome capabilities :=
  if recognized managerAPI
  then Ok {| version := managerAPI;
             hasValue := default false (opt_hasValue o);
             hasDestroyable := default false (opt_hasDestroyable o) |}
  else Throw (Error "unrecognized protocol version").

End Capabilities.

(** The [HelperManager<Bucket>] interface of [@glimmer/interfaces]:
    [getDestroyable] is an optional member. *)
Record HelperManager (Bucket : Type) : Type := {
  mgr_capabilities : capabilities;
  mgr_createHelper : value -> value -> M Bucket;
  mgr_getValue : Bucket -> M value;
  mgr_getDestroyable : option (Bucket -> value);
  mgr_getDebugName : value -> M string
}.
Arguments mgr_capabilities {Bucket} _.
Arguments mgr_createHelper {Bucket} _ _ _.
Arguments mgr_getValue {Bucket} _ _.
Arguments mgr_getDestroyable {Bucket} _.
Arguments mgr_getDebugName {Bucket} _ _.

End Manager.

Module Runloop.

(** Modelled from the spec: [join] of [@ember/runloop], the host's batching
    scheduler.  It does not run the action; it enqueues it. *)
Definition join (a : action) : M unit :=
  fun w => (Ok tt, with_queue (queue w ++ [a]) w).

(** What an enqueued action does when the scheduler runs it: the body of the
    closure of [recompute]. *)
Definition run_action (a : action) : M unit :=
  match a with
  | DirtyRecomputeTag this =>
      fun w => match this with
               | VObject l => Validator.dirtyTag (recompute_tag_of w l) w
               | VUndefined | VNull => (Throw TypeError, w)
               | _ => Validator.dirtyTag None w
               end
  end.

Fixpoint run_actions (l : list action) : M unit :=
  match l with
  | [] => ret tt
  | a :: l' => run_action a;; run_actions l'
  end.

(** Modelled from the spec: the flush at the end of the run-loop turn.  The
    scheduler coalesces: an action that was enqueued several times in the
    turn runs once. *)
Definition flush : M unit :=
  fun w => run_actions (remove_dups (queue w)) (with_queue [] w).

End Runloop.

(** ** The helper module *)

Module Helper.

Import Validator Debug Owner Manager Runloop.

(** The bucket of the classic manager, [ClassicHelperStateBucket]. *)
Record ClassicHelperStateBucket : Type := Bucket {
  instance : value;
  args : value
}.

(** The bucket of the simple manager is the arrow function of
    [SimpleClassicHelperManager.createHelper]; it closes over [definition]
    and [args], both references. *)
Record thunk : Type := Thunk {
  thunk_definition : value;
  thunk_args : value
}.

(** An instance of [ClassicHelperManager]: its two fields. *)
Record ClassicHelperManager : Type := {
  classic_capabilities : capabilities;
  ownerInjection : value
}.

(** An instance of [SimpleClassicHelperManager]: its one field. *)
Record SimpleClassicHelperManager : Type := {
  simple_capabilities : capabilities
}.

Section Code.

(** The bodies of the user's functions: [code f this arguments]. *)
Variable code : fid -> value -> list value -> M value.

(** [init] of [FrameworkObject], the superclass of [Helper]. *)
Variable FrameworkObject_init : value -> value -> M unit.

(** [getDebugName] of [@ember/-internals/utils].  The file calls it as
    [getDebugName!(...)]: the binding may be [undefined], and when it is a
    function it is code outside this file, which may raise. *)
Variable utils_getDebugName : option (value -> M string).

(** The call [getDebugName!(v)]: a [TypeError] where the binding is
    [undefined]. *)
Definition call_utils_getDebugName (v : value) : M string :=
  match utils_getDebugName with
  | Some f => f v
  | None => throw TypeError
  end.

(** The revisions [helperCapabilities] recognises. *)
Variable recognized : string -> bool.

(** [f.call(this, ...arguments)] and [f(...arguments)]: a [TypeError] when
    [f] is not a function. *)
Definition call_function (f : value) (this : value) (arguments : list value)
  : M value :=
  fun w => match f with
           | VObject l =>
               match callable (object_at w l) with
               | Some id => code id this arguments w
               | None => (Throw TypeError, w)
               end
           | _ => (Throw TypeError, w)
           end.

(** [receiver.name(...arguments)]. *)
Definition call_method (receiver : value) (name : string)
    (arguments : list value) : M value :=
  let* f := get_prop receiver name in
  call_function f receiver arguments.

(** *** class Helper *)

(** [Helper.init], lines 131-136. *)
Definition init (this : value) (properties : value) : M unit :=
  FrameworkObject_init this properties;;
  let* t := createTag in
  match this with
  | VObject l => update_object l (set_recompute_tag (Some t))
  | _ => throw TypeError
  end;;
  let* c := get_prop this "compute" in
  assert "expected compute to be defined" (truthy c).

(** [Helper.recompute], lines 167-169. *)
Definition recompute (this : value) : M unit :=
  join (DirtyRecomputeTag this).

(** [this[RECOMPUTE_TAG]] on an arbitrary receiver. *)
Definition get_recompute_tag (v : value) : M (option tag) :=
  fun w => match v with
           | VUndefined | VNull => (Throw TypeError, w)
           | VObject l => (Ok (recompute_tag_of w l), w)
           | _ => (Ok None, w)
           end.

(** *** class ClassicHelperManager *)

(** [isFactoryManager], lines 245-247: [obj != null && 'class' in obj]. *)
Definition isFactoryManager (obj : value) : M bool :=
  match obj with
  | VUndefined | VNull => ret false
  | _ => has_prop "class" obj
  end.

(** The constructor, lines 188-199, with the field initialiser. *)
Definition new_ClassicHelperManager (o : value) : M ClassicHelperManager :=
  match helperCapabilities recognized "3.23"
          {| opt_hasValue := Some true; opt_hasDestroyable := Some true |} with
  | Throw e => throw e
  | Ok caps =>
      let* l := alloc empty_object in
      setOwner (VObject l) o;;
      ret {| classic_capabilities := caps; ownerInjection := VObject l |}
  end.

(** The type guard of lines 211-217. *)
Definition is_HelperInstance (w : world) (i : value) : bool :=
  if negb (bool_decide (i = VNull)) && String.eqb (typeof w i) "object"
  then String.eqb (typeof w (field w i "compute")) "function" &&
       String.eqb (typeof w (field w i "destroy")) "function"
  else false.

(** The initialiser of [instance], lines 205-207. *)
Definition instantiate (this : ClassicHelperManager) (definition : value)
  : M value :=
  let* fm := isFactoryManager definition in
  if fm : bool
  then call_method definition "create" []
  else call_method definition "create" [ownerInjection this].

(** [createHelper], lines 201-224. *)
Definition createHelper (this : ClassicHelperManager)
    (definition : value) (a : value) : M ClassicHelperStateBucket :=
  let* i := instantiate this definition in
  let* w := get_world in
  assert "expected HelperInstance" (is_HelperInstance w i);;
  ret {| instance := i; args := a |}.

(** [getDestroyable], lines 226-228. *)
Definition getDestroyable (b : ClassicHelperStateBucket) : value :=
  instance b.

(** [getValue], lines 230-238. *)
Definition getValue (b : ClassicHelperStateBucket) : M value :=
  let* positional := get_prop (args b) "positional" in
  let* named := get_prop (args b) "named" in
  let* r := call_method (instance b) "compute" [positional; named] in
  let* t := get_recompute_tag (instance b) in
  consumeTag t;;
  ret r.

(** The reference the specification compares [getValue] with: calling
    [instance.compute(args.positional, args.named)] directly. *)
Definition direct_compute (b : ClassicHelperStateBucket) : M value :=
  let* positional := get_prop (args b) "positional" in
  let* named := get_prop (args b) "named" in
  call_method (instance b) "compute" [positional; named].

(** [getDebugName], lines 240-242. *)
Definition getDebugName (definition : value) : M string :=
  let* c := get_prop definition "class" in
  let* p := get_prop (if truthy c then c else definition) "prototype" in
  call_utils_getDebugName p.

(** The manager as a [HelperManager<ClassicHelperStateBucket>]. *)
Definition classic_manager (this : ClassicHelperManager)
  : HelperManager ClassicHelperStateBucket :=
  {| mgr_capabilities := classic_capabilities this;
     mgr_createHelper := createHelper this;
     mgr_getValue := getValue;
     mgr_getDestroyable := Some getDestroyable;
     mgr_getDebugName := getDebugName |}.

(** *** class Wrapper and [helper] *)

(** [new Wrapper(compute)], lines 257-260: the two own properties of the
    instance.  The [create] method it inherits from the class is
    [Wrapper_create] below; it is not entered as a property here, so the
    model says nothing of [definition.create] read on a product of
    [helper]. *)
Definition new_Wrapper (compute : value) : M value :=
  let* l := alloc (literal [("isHelperFactory", VBool true);
                            ("compute", compute)]) in
  ret (VObject l).

(** [Wrapper.create], lines 262-267. *)
Definition Wrapper_create (this : value) : M value :=
  let* c := get_prop this "compute" in
  let* l := alloc (literal [("compute", c)]) in
  ret (VObject l).

(** [helper], lines 360-364. *)
Definition helper (helperFn : value) : M value :=
  new_Wrapper helperFn.

(** *** class SimpleClassicHelperManager *)

(** The constructor: the field initialiser of lines 271-273. *)
Definition new_SimpleClassicHelperManager : outcome SimpleClassicHelperManager :=
  match helperCapabilities recognized "3.23"
          {| opt_hasValue := Some true; opt_hasDestroyable := None |} with
  | Throw e => Throw e
  | Ok caps => Ok {| simple_capabilities := caps |}
  end.

(** [createHelper], lines 275-277: the arrow function is returned, not run. *)
Definition simple_createHelper (definition : value) (a : value) : M thunk :=
  ret {| thunk_definition := definition; thunk_args := a |}.

(** The body of the arrow function of line 276.  [compute.call] is taken to
    be the [call] every function inherits, which calls [compute] itself; a
    [compute] with a [call] of its own is outside this model. *)
Definition run_thunk (fn : thunk) : M value :=
  let* f := get_prop (thunk_definition fn) "compute" in
  let* positional := get_prop (thunk_args fn) "positional" in
  let* named := get_prop (thunk_args fn) "named" in
  call_function f VNull [positional; named].

(** [getValue], lines 279-281. *)
Definition simple_getValue (fn : thunk) : M value :=
  run_thunk fn.

(** [getDebugName], lines 283-285. *)
Definition simple_getDebugName (definition : value) : M string :=
  let* c := get_prop definition "compute" in
  call_utils_getDebugName c.

(** The manager as a [HelperManager<() => unknown>]: the class has no
    [getDestroyable] member. *)
Definition simple_manager (this : SimpleClassicHelperManager)
  : HelperManager thunk :=
  {| mgr_capabilities := simple_capabilities this;
     mgr_createHelper := simple_createHelper;
     mgr_getValue := simple_getValue;
     mgr_getDestroyable := None;
     mgr_getDebugName := simple_getDebugName |}.

End Code.

End Helper.

(** ** The vocabulary of the specification *)

Module Spec.

Import Validator Debug Owner Manager Runloop Helper.

(** The specification's contract on what a definition's factory produces: a
    non-null object, in the sense of [typeof], that exposes a [compute]
    function and a [destroy] function. *)
Definition helper_instance_shape (w : world) (i : value) : Prop :=
  i <> VNull /\ typeof w i = "object" /\
  typeof w (field w i "compute") = "function" /\
  typeof w (field w i "destroy") = "function".

(** A definition is a factory manager when it is an object with a [class]
    property. *)
Definition has_class (w : world) (d : loc) : bool :=
  bool_decide (is_Some (props (object_at w d) !! "class")).

(** [n] calls in a row, in one synchronous turn. *)
Fixpoint times (n : nat) (m : M unit) : M unit :=
  match n with
  | O => ret tt
  | S n' => m;; times n' m
  end.

(** The store after a dirtying of [t] at a moment when the store is [w]. *)
Definition dirtied (t : tag) (w : world) : world :=
  {| heap := heap w; tags := <[t := S (clock w)]> (tags w);
     clock := S (clock w); trace := trace w ++ [EvDirtyTag t];
     queue := queue w |}.

(** Modelled from the spec: the [create] that a class inherits from
    [FrameworkObject], which is not part of this file: the definition's
    factory makes a new object with the methods of the class and runs [init]
    on it, with the argument the factory was given. *)
Definition framework_create (super_init : value -> value -> M unit)
    (methods : list (string * value)) (arguments : list value) : M value :=
  let* l := alloc (literal methods) in
  init super_init (VObject l) (nth 0 arguments VUndefined);;
  ret (VObject l).



(** [w'] differs from [w] at most in the object at [l], in the state of the
    tag that object holds in [w], and in the revision counter, the log and
    the queue. *)
Definition same_outside (l : loc) (w w' : world) : Prop :=
  (forall l', l' <> l -> heap w' !! l' = heap w !! l') /\
  (forall t, recompute_tag_of w l <> Some t -> tags w' !! t = tags w !! t).

(** The function body [fc], called on [this] with [xs], returns the same
    whatever the object at [l] and its tag are. *)
Definition local_compute (code : fid -> value -> list value -> M value)
    (l : loc) (fc : fid) (this : value) (xs : list value) : Prop :=
  forall wa wb, same_outside l wa wb ->
    fst (code fc this xs wb) = fst (code fc this xs wa).


End Spec.

(** ** The scenarios of the specification *)

Module Scenario.

Import Validator Debug Owner Manager Runloop Helper Spec.

(** [FrameworkObject.init] does nothing in the scenarios. *)
Definition no_init (this properties : value) : M unit := ret tt.

(** A debug name utility that only tells a function from the rest. *)
Definition plain_name_of (v : value) : M string :=
  fun w =>
    (Ok (if String.eqb (typeof w v) "function" then "(unknown function)"
         else if String.eqb (typeof w v) "object" then "(unknown object)"
         else typeof w v), w).

Definition plain_name : option (value -> M string) := Some plain_name_of.

(** Only revision 3.23 is recognised. *)
Definition only_3_23 (s : string) : bool := String.eqb s "3.23".

(** Arithmetic of the scenarios, on numbers only. *)
Definition arith (op : Z -> Z -> Z) (a b : value) : M value :=
  match a, b with
  | VNumber x, VNumber y => ret (VNumber (op x y))
  | _, _ => throw (Error "operand outside the scenario")
  end.

Definition nth_arg (n : nat) (arguments : list value) : value :=
  nth n arguments VUndefined.

(** Where the functions and classes of the scenarios live. *)
Definition l_create : loc := 1%positive.
Definition l_compute : loc := 2%positive.
Definition l_destroy : loc := 3%positive.
Definition l_D : loc := 4%positive.
Definition l_D_prototype : loc := 5%positive.
Definition l_double : loc := 6%positive.
Definition l_reader : loc := 7%positive.
Definition l_bad_create : loc := 8%positive.
Definition l_factory_manager : loc := 9%positive.
Definition l_Reader : loc := 10%positive.
Definition l_Bad : loc := 11%positive.
Definition l_owner : loc := 13%positive.

(** Modelled from the spec: the [create] that a class inherits from
    [FrameworkObject], which is not part of this file: the definition's
    factory makes a new object with the methods of the class and runs [init]
    on it.  The scenario's factory also keeps the argument it was given. *)
Definition class_create (compute : loc) (arguments : list value) : M value :=
  let* l := alloc (literal [("compute", VObject compute);
                            ("destroy", VObject l_destroy);
                            ("injected", nth_arg 0 arguments)]) in
  init no_init (VObject l) (nth_arg 0 arguments);;
  ret (VObject l).

(** The code table of the scenarios. *)
Definition code (f : fid) (this : value) (arguments : list value) : M value :=
  match f with
  | 0%nat => (* static create of D *)
      class_create l_compute arguments
  | 1%nat => (* compute([a, b], {op}) { return op === 'add' ? a + b : a - b } *)
      let* a := get_prop (nth_arg 0 arguments) "0" in
      let* b := get_prop (nth_arg 0 arguments) "1" in
      let* op := get_prop (nth_arg 1 arguments) "op" in
      if bool_decide (op = VString "add") then arith Z.add a b
      else arith Z.sub a b
  | 2%nat => (* destroy() { this.isDestroyed = true } *)
      match this with
      | VObject l => update_object l (set_prop "isDestroyed" (VBool true))
      | _ => throw TypeError
      end;;
      ret VUndefined
  | 3%nat => (* (pos, named) => pos[0] * 2 *)
      let* a := get_prop (nth_arg 0 arguments) "0" in
      arith Z.mul a (VNumber 2)
  | 4%nat => (* a compute that reads three tags before it returns *)
      consumeTag (Some 7%positive);;
      consumeTag (Some 8%positive);;
      consumeTag (Some 7%positive);;
      ret (VString "read")
  | 5%nat => (* a factory whose product has no destroy *)
      let* l := alloc (literal [("compute", VObject l_compute)]) in
      ret (VObject l)
  | 6%nat => (* static create of the class whose compute is entry 4 *)
      class_create l_reader arguments
  | _ => ret VUndefined
  end.

Definition class_object (create : loc) : object :=
  {| props := list_to_map [("create", VObject create);
                           ("isHelperFactory", VBool true);
                           ("prototype", VObject l_D_prototype)];
     callable := Some 7%nat; recompute_tag := None; owner := None |}.

(** The store before any helper is created. *)
Definition heap0 : gmap loc object :=
  list_to_map
    [(l_create, function_object 0%nat);
     (l_compute, function_object 1%nat);
     (l_destroy, function_object 2%nat);
     (l_D, class_object l_create);
     (l_D_prototype, literal [("compute", VObject l_compute);
                              ("destroy", VObject l_destroy)]);
     (l_double, function_object 3%nat);
     (l_reader, function_object 4%nat);
     (l_bad_create, function_object 5%nat);
     (l_factory_manager, literal [("class", VObject l_D);
                                  ("create", VObject l_create)]);
     (l_Reader, class_object 12%positive);
     (12%positive, function_object 6%nat);
     (l_Bad, class_object l_bad_create);
     (l_owner, literal [("name", VString "application")])].

Definition world0 : world :=
  {| heap := heap0; tags := ∅; clock := 0%nat; trace := []; queue := [] |}.

(** The array literal [[v0, v1, ...]]. *)
Fixpoint array_props (i : nat) (vs : list value) : list (string * value) :=
  match vs with
  | [] => []
  | v :: vs' => (pretty i, v) :: array_props (S i) vs'
  end.

Definition array (vs : list value) : object :=
  literal (("length", VNumber (Z.of_nat (length vs))) :: array_props 0%nat vs).

(** The arguments object [{positional, named}] with fresh parts. *)
Definition new_args (positional : list value) (named : list (string * value))
  : M value :=
  let* p := alloc (array positional) in
  let* n := alloc (literal named) in
  let* a := alloc (literal [("positional", VObject p); ("named", VObject n)]) in
  ret (VObject a).

(** A call site of a class based definition: the manager is made for the
    owner, the arguments are built, the helper is created and its value is
    read. *)
Definition classic_call_site (definition : loc) (positional : list value)
    (named : list (string * value)) : M value :=
  let* m := new_ClassicHelperManager only_3_23 VNull in
  let* a := new_args positional named in
  let* b := createHelper code m (VObject definition) a in
  getValue code b.



(** The manager the registry makes for the scenario's owner, and the store
    it leaves. *)
Definition manager0 : ClassicHelperManager :=
  match fst (new_ClassicHelperManager only_3_23 (VObject l_owner) world0) with
  | Ok m => m
  | Throw _ => {| classic_capabilities := Capabilities "" false false;
                  ownerInjection := VUndefined |}
  end.

Definition world1 : world :=
  snd (new_ClassicHelperManager only_3_23 (VObject l_owner) world0).

(** A bucket of the class whose [compute] reads three tags, and the store
    in which it was created. *)
Definition reader_site : outcome ClassicHelperStateBucket * world :=
  (let* a := new_args [] [] in
   createHelper code manager0 (VObject l_Reader) a) world1.

Definition reader_bucket : ClassicHelperStateBucket :=
  match fst reader_site with
  | Ok b => b
  | Throw _ => Bucket VUndefined VUndefined
  end.

Definition reader_world : world := snd reader_site.

End Scenario.

(** ** Further cases *)

Module Cases.

Import Validator Debug Owner Manager Runloop Helper Spec.

(** A definition whose [class] property is present and [undefined]. *)
Definition l_loose : loc := 30%positive.
(** An object whose [compute] is the number 5. *)
Definition l_numbered : loc := 31%positive.
(** An object without [compute]. *)
Definition l_bare : loc := 32%positive.
(** A definition whose [create] is the [create] of [Wrapper]. *)
Definition l_wrapper : loc := 33%positive.
Definition l_wrapper_create : loc := 34%positive.
(** An arguments object. *)
Definition l_args : loc := 35%positive.

(** The scenarios' code table with one more entry: [Wrapper.create]. *)
Definition code (f : fid) (this : value) (arguments : list value) : M value :=
  match f with
  | 20%nat => Wrapper_create this
  | _ => Scenario.code f this arguments
  end.

(** The scenarios' store after the manager was made, with these objects. *)
Definition heap1 : gmap loc object :=
  <[l_loose := literal [("class", VUndefined);
                        ("create", VObject Scenario.l_create);
                        ("prototype", VObject Scenario.l_D_prototype)]]>
  (<[l_numbered := literal [("compute", VNumber 5);
                            ("destroy", VObject Scenario.l_destroy)]]>
  (<[l_bare := literal [("destroy", VObject Scenario.l_destroy)]]>
  (<[l_wrapper := literal [("isHelperFactory", VBool true);
                           ("compute", VObject Scenario.l_double);
                           ("create", VObject l_wrapper_create)]]>
  (<[l_wrapper_create := function_object 20%nat]>
  (<[l_args := literal [("positional", VObject l_bare);
                        ("named", VObject l_bare)]]>
     (heap Scenario.world1)))))).

Definition world2 : world := with_heap heap1 Scenario.world1.

(** A second manager, made after the scenarios' one, for another owner. *)
Definition manager1 : ClassicHelperManager :=
  match fst (new_ClassicHelperManager Scenario.only_3_23
               (VObject Scenario.l_D) Scenario.world1) with
  | Ok m => m
  | Throw _ => Scenario.manager0
  end.

Definition world3 : world :=
  snd (new_ClassicHelperManager Scenario.only_3_23
         (VObject Scenario.l_D) Scenario.world1).

(** A call site of the scenarios' class in that store. *)
Definition site : outcome ClassicHelperStateBucket * world :=
  createHelper Scenario.code Scenario.manager0 (VObject Scenario.l_D)
    (VObject l_args) world2.

Definition bucket2 : ClassicHelperStateBucket :=
  match fst site with
  | Ok b => b
  | Throw _ => Bucket VUndefined VUndefined
  end.

Definition world4 : world := snd site.

(** A call site of the scenarios' class with arguments [2, 3] and
    [op: 'add']: the store with the arguments, the bucket and the store
    [createHelper] leaves. *)
Definition world5 : world :=
  snd (Scenario.new_args [VNumber 2; VNumber 3] [("op", VString "add")]
         Scenario.world1).

Definition bucket5 : ClassicHelperStateBucket :=
  match fst (createHelper Scenario.code Scenario.manager0
               (VObject Scenario.l_D) (VObject 17%positive) world5) with
  | Ok b => b
  | Throw _ => Bucket VUndefined VUndefined
  end.

Definition world6 : world :=
  snd (createHelper Scenario.code Scenario.manager0
         (VObject Scenario.l_D) (VObject 17%positive) world5).

End Cases.

(** ** Two call sites of one class *)

Module Sites.

Import Validator Debug Owner Manager Runloop Helper Spec.

(** A class that extends [Helper] with the adding [compute] of the
    scenarios, and a class whose instances share a counter: [compute]
    returns the count and [destroy] adds one to it. *)
Definition l_Adder : loc := 40%positive.
Definition l_Adder_create : loc := 41%positive.
Definition l_Counter : loc := 42%positive.
Definition l_Counter_create : loc := 43%positive.
Definition l_count_compute : loc := 44%positive.
Definition l_count_destroy : loc := 45%positive.
Definition l_shared : loc := 46%positive.
Definition l_args : loc := 47%positive.
Definition l_positional : loc := 48%positive.
Definition l_named : loc := 49%positive.

Definition adder_methods : list (string * value) :=
  [("compute", VObject Scenario.l_compute);
   ("destroy", VObject Scenario.l_destroy)].

Definition counter_methods : list (string * value) :=
  [("compute", VObject l_count_compute);
   ("destroy", VObject l_count_destroy)].

(** The scenarios' code table with the two factories and the two methods of
    the counting class. *)
Definition code (f : fid) (this : value) (arguments : list value) : M value :=
  match f with
  | 30%nat => framework_create Scenario.no_init adder_methods arguments
  | 31%nat => (* compute() { return shared.count } *)
      get_prop (VObject l_shared) "count"
  | 32%nat => (* destroy() { shared.count = shared.count + 1 } *)
      let* c := get_prop (VObject l_shared) "count" in
      let* c' := Scenario.arith Z.add c (VNumber 1) in
      update_object l_shared (set_prop "count" c');;
      ret VUndefined
  | 33%nat => framework_create Scenario.no_init counter_methods arguments
  | _ => Scenario.code f this arguments
  end.

Definition class_of (create : loc) : object :=
  literal [("create", VObject create); ("isHelperFactory", VBool true)].

Definition heap0 : gmap loc object :=
  <[l_Adder := class_of l_Adder_create]>
  (<[l_Adder_create := function_object 30%nat]>
  (<[l_Counter := class_of l_Counter_create]>
  (<[l_Counter_create := function_object 33%nat]>
  (<[l_count_compute := function_object 31%nat]>
  (<[l_count_destroy := function_object 32%nat]>
  (<[l_shared := literal [("count", VNumber 0)]]>
  (<[l_args := literal [("positional", VObject l_positional);
                        ("named", VObject l_named)]]>
  (<[l_positional := Scenario.array [VNumber 2; VNumber 3]]>
  (<[l_named := literal [("op", VString "add")]]>
     (heap Scenario.world1)))))))))).

Definition world0 : world := with_heap heap0 Scenario.world1.


(** The first and the second call site of the adding class. *)
Definition first_site : outcome ClassicHelperStateBucket * world :=
  createHelper code Scenario.manager0 (VObject l_Adder) (VObject l_args)
    world0.

Definition second_site : outcome ClassicHelperStateBucket * world :=
  createHelper code Scenario.manager0 (VObject l_Adder) (VObject l_args)
    (snd first_site).

(** Both helpers are created and the second value is read; then the first
    instance is destroyed and its tag dirtied, and the second value is read
    again. *)
Definition two_call_sites (class : loc) : M (value * value) :=
  let* b1 := createHelper code Scenario.manager0 (VObject class)
               (VObject l_args) in
  let* b2 := createHelper code Scenario.manager0 (VObject class)
               (VObject l_args) in
  let* before := getValue code b2 in
  call_method code (getDestroyable b1) "destroy" [];;
  let* t := get_recompute_tag (instance b1) in
  dirtyTag t;;
  let* after := getValue code b2 in
  ret (before, after).

End Sites.

(** ** Properties *)

Import Validator Debug Owner Manager Runloop Helper Spec.

(** *** Reading the store *)

Lemma get_prop_object (l : loc) (k : string) (w : world) :
  get_prop (VObject l) k w = (Ok (field w (VObject l) k), w).
Proof. reflexivity. Qed.

Lemma get_prop_keeps_world (v : value) (k : string) (w : world) :
  snd (get_prop v k w) = w.
Proof. destruct v; reflexivity. Qed.

Lemma get_prop_ok (v : value) (k : string) (w : world) (x : value) (w' : world) :
  get_prop v k w = (Ok x, w') -> w' = w /\ x = field w v k.
Proof. destruct v; simpl; intros H; inversion H; auto. Qed.

Lemma get_prop_throw (v : value) (k : string) (w : world) (e : exn) (w' : world) :
  get_prop v k w = (Throw e, w') ->
  w' = w /\ e = TypeError /\ (v = VUndefined \/ v = VNull).
Proof. destruct v; simpl; intros H; inversion H; auto. Qed.

(** A method call that returns was made on an object. *)
Lemma call_method_ok_object code (i : value) (k : string) (xs : list value)
    (w : world) (v : value) (w' : world) :
  call_method code i k xs w = (Ok v, w') -> exists l, i = VObject l.
Proof.
  unfold call_method, bind. destruct i; simpl; try discriminate; eauto.
Qed.

Section Classic.

Variable code : fid -> value -> list value -> M value.

(** *** getValue *)

Lemma getValue_unfold (b : ClassicHelperStateBucket) (w : world) :
  getValue code b w =
  match direct_compute code b w with
  | (Ok r, w1) =>
      match get_recompute_tag (instance b) w1 with
      | (Ok t, w2) => (Ok r, log (EvConsumeTag t) w2)
      | (Throw e, w2) => (Throw e, w2)
      end
  | (Throw e, w1) => (Throw e, w1)
  end.
Proof.
  unfold getValue, direct_compute, bind.
  destruct (get_prop (args b) "positional" w) as [[p|e] w0]; [|reflexivity].
  destruct (get_prop (args b) "named" w0) as [[n|e] w0']; [|reflexivity].
  destruct (call_method code (instance b) "compute" [p; n] w0')
    as [[r|e] w1]; [|reflexivity].
  destruct (get_recompute_tag (instance b) w1) as [[t|e] w2]; reflexivity.
Qed.

Lemma direct_compute_ok_object (b : ClassicHelperStateBucket) (w : world)
    (v : value) (w1 : world) :
  direct_compute code b w = (Ok v, w1) -> exists l, instance b = VObject l.
Proof.
  unfold direct_compute, bind.
  destruct (get_prop (args b) "positional" w) as [[p|e] w0]; [|discriminate].
  destruct (get_prop (args b) "named" w0) as [[n|e] w0']; [|discriminate].
  apply call_method_ok_object.
Qed.

(** When [compute] raises, [getValue] raises the same exception from the
    same store, and the tag is not consumed. *)
Lemma getValue_compute_throws (b : ClassicHelperStateBucket) (w : world)
    (e : exn) (w1 : world) :
  direct_compute code b w = (Throw e, w1) ->
  getValue code b w = (Throw e, w1).
Proof. intros H. rewrite getValue_unfold, H. reflexivity. Qed.

Lemma getValue_compute_returns (b : ClassicHelperStateBucket) (w : world)
    (v : value) (w1 : world) :
  direct_compute code b w = (Ok v, w1) ->
  exists l, instance b = VObject l /\
    getValue code b w = (Ok v, log (EvConsumeTag (recompute_tag_of w1 l)) w1).
Proof.
  intros H. destruct (direct_compute_ok_object _ _ _ _ H) as [l Hl].
  exists l. split; [exact Hl|].
  rewrite getValue_unfold, H, Hl. reflexivity.
Qed.

Lemma getValue_result (b : ClassicHelperStateBucket) (w : world) :
  fst (getValue code b w) = fst (direct_compute code b w).
Proof.
  destruct (direct_compute code b w) as [[v|e] w1] eqn:H.
  - destruct (getValue_compute_returns _ _ _ _ H) as (l & _ & ->). reflexivity.
  - rewrite (getValue_compute_throws _ _ _ _ H). reflexivity.
Qed.

End Classic.

(** *** The classic manager: value and tag consumption *)

(** C1. For every bucket, [getValue] returns what
    [instance.compute(args.positional, args.named)] returns, unchanged, be it
    a value ([null] and [undefined] included) or an exception.  In the
    scenario of the class whose [compute] adds or subtracts, a call site with
    positional [2, 3] yields 5 for [op: 'add'] and -1 for [op: 'sub']. *)
Theorem getValue_returns_compute_result :
  (forall code (b : ClassicHelperStateBucket) (w : world),
     fst (getValue code b w) = fst (direct_compute code b w)) /\
  fst (Scenario.classic_call_site Scenario.l_D [VNumber 2; VNumber 3]
         [("op", VString "add")] Scenario.world0) = Ok (VNumber 5) /\
  fst (Scenario.classic_call_site Scenario.l_D [VNumber 2; VNumber 3]
         [("op", VString "sub")] Scenario.world0) = Ok (VNumber (-1)).
Proof.
  split; [exact getValue_result|].
  split; vm_compute; reflexivity.
Qed.

(** C2. A call of [getValue] whose [compute] returns consumes the instance's
    recompute tag once, after the call of [compute]: the store it leaves is
    the store [compute] left with one [consumeTag] entry, for the tag the
    instance holds at that point, added at the end of the log.  This holds
    whatever [compute] itself logged. *)
Theorem getValue_consumes_tag_once_after_compute
    code (b : ClassicHelperStateBucket) (w : world) (v : value) (w1 : world) :
  direct_compute code b w = (Ok v, w1) ->
  exists l, instance b = VObject l /\
    getValue code b w = (Ok v, log (EvConsumeTag (recompute_tag_of w1 l)) w1) /\
    trace (snd (getValue code b w)) =
      trace w1 ++ [EvConsumeTag (recompute_tag_of w1 l)].
Proof.
  intros H. destruct (getValue_compute_returns code b w v w1 H) as (l & Hl & Hg).
  exists l. rewrite Hg. auto.
Qed.

(** The witness: a [compute] that reads three tags itself; the instance's own
    tag is consumed once, last. *)
Lemma getValue_consumes_tag_once_after_compute_witness :
  exists l, instance Scenario.reader_bucket = VObject l /\
    getValue Scenario.code Scenario.reader_bucket Scenario.reader_world =
      (Ok (VString "read"),
       log (EvConsumeTag
              (recompute_tag_of
                 (snd (direct_compute Scenario.code Scenario.reader_bucket
                         Scenario.reader_world)) l))
         (snd (direct_compute Scenario.code Scenario.reader_bucket
                 Scenario.reader_world))) /\
    trace (snd (getValue Scenario.code Scenario.reader_bucket
                  Scenario.reader_world)) =
      trace (snd (direct_compute Scenario.code Scenario.reader_bucket
                    Scenario.reader_world)) ++
      [EvConsumeTag
         (recompute_tag_of
            (snd (direct_compute Scenario.code Scenario.reader_bucket
                    Scenario.reader_world)) l)].
Proof.
  apply (getValue_consumes_tag_once_after_compute Scenario.code
           Scenario.reader_bucket Scenario.reader_world (VString "read")).
  vm_compute. reflexivity.
Defined.

Example reader_trace :
  trace (snd (getValue Scenario.code Scenario.reader_bucket
                Scenario.reader_world)) =
  [EvCreateTag 1%positive;
   EvConsumeTag (Some 7%positive); EvConsumeTag (Some 8%positive);
   EvConsumeTag (Some 7%positive);
   EvConsumeTag (Some 1%positive)].
Proof. vm_compute. reflexivity. Qed.

(** *** The classic manager: construction and validation *)

Lemma is_HelperInstance_shape (w : world) (i : value) :
  is_HelperInstance w i = true <-> helper_instance_shape w i.
Proof.
  unfold is_HelperInstance, helper_instance_shape.
  destruct (bool_decide_reflect (i = VNull)) as [->|Hn]; simpl.
  { split; [discriminate|]. intros [H _]. congruence. }
  destruct (String.eqb_spec (typeof w i) "object") as [Ho|Ho]; simpl.
  - rewrite andb_true_iff, !String.eqb_eq. tauto.
  - split; [discriminate|]. intros (_ & H & _). congruence.
Qed.

Lemma createHelper_unfold code (m : ClassicHelperManager) (d a : value)
    (w : world) :
  createHelper code m d a w =
  match instantiate code m d w with
  | (Ok i, w1) =>
      if is_HelperInstance w1 i
      then (Ok {| instance := i; args := a |}, w1)
      else (Throw (AssertionError "expected HelperInstance"), w1)
  | (Throw e, w1) => (Throw e, w1)
  end.
Proof.
  unfold createHelper, bind, get_world, assert, ret, throw.
  destruct (instantiate code m d w) as [[i|e] w1]; [|reflexivity].
  destruct (is_HelperInstance w1 i); reflexivity.
Qed.

(** C4. Once the definition's factory has produced a value, [createHelper]
    checks it: a non-null object with a [compute] function and a [destroy]
    function is returned in the bucket, next to the arguments as they were
    given and with the store as the factory left it; anything else makes
    [createHelper] fail with the assertion error [expected HelperInstance]. *)
Theorem createHelper_validates_instance
    code (m : ClassicHelperManager) (d a : value) (w : world)
    (i : value) (w1 : world) :
  instantiate code m d w = (Ok i, w1) ->
  (helper_instance_shape w1 i ->
     createHelper code m d a w = (Ok {| instance := i; args := a |}, w1)) /\
  (~ helper_instance_shape w1 i ->
     createHelper code m d a w =
       (Throw (AssertionError "expected HelperInstance"), w1)).
Proof.
  intros Hi. rewrite createHelper_unfold, Hi.
  pose proof (is_HelperInstance_shape w1 i) as Hs.
  destruct (is_HelperInstance w1 i).
  - split; [reflexivity|]. intros Hn. exfalso. apply Hn, Hs. reflexivity.
  - split; [|reflexivity]. intros Hy. apply Hs in Hy. discriminate.
Qed.

(** The witness: the factory of the second class makes an object without
    [destroy], the factory of the first a full helper instance. *)
Lemma createHelper_validates_instance_witness :
  createHelper Scenario.code Scenario.manager0 (VObject Scenario.l_Bad) VNull
      Scenario.world1 =
    (Throw (AssertionError "expected HelperInstance"),
     snd (instantiate Scenario.code Scenario.manager0 (VObject Scenario.l_Bad)
            Scenario.world1)) /\
  createHelper Scenario.code Scenario.manager0 (VObject Scenario.l_D) VNull
      Scenario.world1 =
    (Ok {| instance := VObject 15%positive; args := VNull |},
     snd (instantiate Scenario.code Scenario.manager0 (VObject Scenario.l_D)
            Scenario.world1)).
Proof.
  split.
  - apply (createHelper_validates_instance Scenario.code Scenario.manager0
             (VObject Scenario.l_Bad) VNull Scenario.world1
             (VObject 15%positive)).
    + vm_compute. reflexivity.
    + intros Hs. apply is_HelperInstance_shape in Hs. vm_compute in Hs.
      discriminate.
  - apply (createHelper_validates_instance Scenario.code Scenario.manager0
             (VObject Scenario.l_D) VNull Scenario.world1
             (VObject 15%positive)).
    + vm_compute. reflexivity.
    + apply is_HelperInstance_shape. vm_compute. reflexivity.
Defined.

Lemma new_ClassicHelperManager_ok recognized (o : value) (w : world)
    (m : ClassicHelperManager) (w1 : world) :
  new_ClassicHelperManager recognized o w = (Ok m, w1) ->
  recognized "3.23" = true /\
  m = {| classic_capabilities := Capabilities "3.23" true true;
         ownerInjection := VObject (fresh (dom (heap w))) |} /\
  w1 = with_heap (<[fresh (dom (heap w)) := set_owner_slot o empty_object]>
                    (heap w)) w.
Proof.
  unfold new_ClassicHelperManager, helperCapabilities.
  destruct (recognized "3.23"); [|discriminate].
  unfold bind, alloc, setOwner, update_object, ret, object_at. simpl.
  rewrite lookup_insert_eq. simpl. rewrite insert_insert_eq.
  intros H. inversion H. auto.
Qed.

Lemma instantiate_object code (m : ClassicHelperManager) (d : loc) (w : world) :
  instantiate code m (VObject d) w =
  call_method code (VObject d) "create"
    (if has_class w d then [] else [ownerInjection m]) w.
Proof.
  unfold instantiate, isFactoryManager, has_prop, bind, has_class.
  destruct (bool_decide _); reflexivity.
Qed.

(** A definition that is not an object cannot be instantiated. *)
Lemma instantiate_non_object code (m : ClassicHelperManager) (d : value)
    (w : world) :
  (forall l, d <> VObject l) ->
  instantiate code m d w = (Throw TypeError, w).
Proof.
  intros Hd. destruct d; try reflexivity. exfalso. exact (Hd l eq_refl).
Qed.

(** C7. The constructor of the manager makes a new record and sets the owner
    on it; from then on [createHelper] obtains the instance in one of two
    ways: it calls [definition.create()] when the definition has a [class]
    property, and [definition.create(ownerInjection)] with that record
    otherwise.  Whatever the call does is all [createHelper] does to the
    store: an exception of the call is passed on, and its product goes
    through the check and into the bucket. *)
Theorem createHelper_constructs_by_definition_shape
    code recognized (o : value) (w : world) (m : ClassicHelperManager)
    (w1 : world) :
  new_ClassicHelperManager recognized o w = (Ok m, w1) ->
  (exists l, ownerInjection m = VObject l /\ heap w !! l = None /\
     object_at w1 l = set_owner_slot o empty_object /\
     owner_of w1 (ownerInjection m) = Some o) /\
  (forall (d : loc) (a : value) (w2 : world),
     has_class w2 d = true ->
     createHelper code m (VObject d) a w2 =
       match call_method code (VObject d) "create" [] w2 with
       | (Ok i, w3) =>
           if is_HelperInstance w3 i
           then (Ok {| instance := i; args := a |}, w3)
           else (Throw (AssertionError "expected HelperInstance"), w3)
       | (Throw e, w3) => (Throw e, w3)
       end) /\
  (forall (d : loc) (a : value) (w2 : world),
     has_class w2 d = false ->
     createHelper code m (VObject d) a w2 =
       match call_method code (VObject d) "create" [ownerInjection m] w2 with
       | (Ok i, w3) =>
           if is_HelperInstance w3 i
           then (Ok {| instance := i; args := a |}, w3)
           else (Throw (AssertionError "expected HelperInstance"), w3)
       | (Throw e, w3) => (Throw e, w3)
       end).
Proof.
  intros H. apply new_ClassicHelperManager_ok in H as (_ & -> & ->).
  split.
  - exists (fresh (dom (heap w))). simpl. split; [reflexivity|].
    split; [apply not_elem_of_dom, is_fresh|].
    unfold object_at. simpl. rewrite lookup_insert_eq. auto.
  - split; intros d a w2 Hc;
      rewrite createHelper_unfold, instantiate_object, Hc; reflexivity.
Qed.

Example instantiate_injects_owner :
  fst (instantiate Scenario.code Scenario.manager0 (VObject Scenario.l_D)
         Scenario.world1) = Ok (VObject 15%positive) /\
  field (snd (instantiate Scenario.code Scenario.manager0
                (VObject Scenario.l_D) Scenario.world1))
        (VObject 15%positive) "injected" = ownerInjection Scenario.manager0 /\
  owner_of (snd (instantiate Scenario.code Scenario.manager0
                   (VObject Scenario.l_D) Scenario.world1))
           (ownerInjection Scenario.manager0) = Some (VObject Scenario.l_owner).
Proof. vm_compute. repeat split; reflexivity. Qed.

Example instantiate_factory_manager :
  fst (instantiate Scenario.code Scenario.manager0
         (VObject Scenario.l_factory_manager) Scenario.world1) =
    Ok (VObject 15%positive) /\
  field (snd (instantiate Scenario.code Scenario.manager0
                (VObject Scenario.l_factory_manager) Scenario.world1))
        (VObject 15%positive) "injected" = VUndefined.
Proof. vm_compute. repeat split; reflexivity. Qed.

Example createHelper_passes_the_owner_record :
  fst (createHelper Scenario.code Scenario.manager0 (VObject Scenario.l_D)
         VNull Scenario.world1) =
    Ok {| instance := VObject 15%positive; args := VNull |} /\
  field (snd (createHelper Scenario.code Scenario.manager0
                (VObject Scenario.l_D) VNull Scenario.world1))
        (VObject 15%positive) "injected" = ownerInjection Scenario.manager0 /\
  fst (createHelper Scenario.code Scenario.manager0
         (VObject Scenario.l_factory_manager) VNull Scenario.world1) =
    Ok {| instance := VObject 15%positive; args := VNull |} /\
  field (snd (createHelper Scenario.code Scenario.manager0
                (VObject Scenario.l_factory_manager) VNull Scenario.world1))
        (VObject 15%positive) "injected" = VUndefined.
Proof. vm_compute. repeat split; reflexivity. Qed.

(** The witness: the manager made for the scenario's owner. *)
Lemma createHelper_constructs_by_definition_shape_witness :
  (exists l, ownerInjection Scenario.manager0 = VObject l /\
     heap Scenario.world0 !! l = None /\
     object_at Scenario.world1 l =
       set_owner_slot (VObject Scenario.l_owner) empty_object /\
     owner_of Scenario.world1 (ownerInjection Scenario.manager0) =
       Some (VObject Scenario.l_owner)) /\
  (forall (d : loc) (a : value) (w2 : world),
     has_class w2 d = true ->
     createHelper Scenario.code Scenario.manager0 (VObject d) a w2 =
       match call_method Scenario.code (VObject d) "create" [] w2 with
       | (Ok i, w3) =>
           if is_HelperInstance w3 i
           then (Ok {| instance := i; args := a |}, w3)
           else (Throw (AssertionError "expected HelperInstance"), w3)
       | (Throw e, w3) => (Throw e, w3)
       end) /\
  (forall (d : loc) (a : value) (w2 : world),
     has_class w2 d = false ->
     createHelper Scenario.code Scenario.manager0 (VObject d) a w2 =
       match call_method Scenario.code (VObject d) "create"
               [ownerInjection Scenario.manager0] w2 with
       | (Ok i, w3) =>
           if is_HelperInstance w3 i
           then (Ok {| instance := i; args := a |}, w3)
           else (Throw (AssertionError "expected HelperInstance"), w3)
       | (Throw e, w3) => (Throw e, w3)
       end).
Proof.
  apply (createHelper_constructs_by_definition_shape Scenario.code
           Scenario.only_3_23 (VObject Scenario.l_owner) Scenario.world0).
  vm_compute. reflexivity.
Defined.

(** *** The simple manager *)

Lemma helper_ok (fn : value) (w : world) :
  exists l, heap w !! l = None /\
    helper fn w =
      (Ok (VObject l),
       with_heap (<[l := literal [("isHelperFactory", VBool true);
                                  ("compute", fn)]]> (heap w)) w).
Proof.
  exists (fresh (dom (heap w))). split; [apply not_elem_of_dom, is_fresh|].
  reflexivity.
Qed.

Lemma field_after_helper (fn : value) (w : world) (l : loc) :
  field (with_heap (<[l := literal [("isHelperFactory", VBool true);
                                    ("compute", fn)]]> (heap w)) w)
        (VObject l) "compute" = fn.
Proof.
  unfold field, object_at. simpl. rewrite lookup_insert_eq. reflexivity.
Qed.





(** *** Capabilities *)

(** C6. Where revision 3.23 is recognised, the simple manager's descriptor
    has [hasValue] true and [hasDestroyable] false, the flag it does not
    declare, and the manager has no [getDestroyable]; the classic manager's
    descriptor has both flags true, and it has a [getDestroyable]. *)
Theorem capabilities_of_the_managers
    code u (recognized : string -> bool) :
  recognized "3.23" = true ->
  (exists s, new_SimpleClassicHelperManager recognized = Ok s /\
     hasValue (mgr_capabilities (simple_manager code u s)) = true /\
     hasDestroyable (mgr_capabilities (simple_manager code u s)) = false /\
     mgr_getDestroyable (simple_manager code u s) = None) /\
  (forall (o : value) (w : world),
     exists m w1, new_ClassicHelperManager recognized o w = (Ok m, w1) /\
       hasValue (mgr_capabilities (classic_manager code u m)) = true /\
       hasDestroyable (mgr_capabilities (classic_manager code u m)) = true /\
       mgr_getDestroyable (classic_manager code u m) = Some getDestroyable).
Proof.
  intros Hr. split.
  - unfold new_SimpleClassicHelperManager, helperCapabilities. rewrite Hr.
    eexists. split; [reflexivity|]. simpl. auto.
  - intros o w. unfold new_ClassicHelperManager, helperCapabilities.
    rewrite Hr. eexists _, _. split; [reflexivity|]. simpl. auto.
Qed.

Lemma capabilities_of_the_managers_witness :
  (exists s, new_SimpleClassicHelperManager Scenario.only_3_23 = Ok s /\
     hasValue (mgr_capabilities
                 (simple_manager Scenario.code Scenario.plain_name s)) = true /\
     hasDestroyable (mgr_capabilities
                 (simple_manager Scenario.code Scenario.plain_name s)) = false /\
     mgr_getDestroyable
       (simple_manager Scenario.code Scenario.plain_name s) = None) /\
  (forall (o : value) (w : world),
     exists m w1,
       new_ClassicHelperManager Scenario.only_3_23 o w = (Ok m, w1) /\
       hasValue (mgr_capabilities
                   (classic_manager Scenario.code Scenario.plain_name m)) = true /\
       hasDestroyable (mgr_capabilities
                   (classic_manager Scenario.code Scenario.plain_name m)) = true /\
       mgr_getDestroyable
         (classic_manager Scenario.code Scenario.plain_name m) =
         Some getDestroyable).
Proof.
  apply (capabilities_of_the_managers Scenario.code Scenario.plain_name
           Scenario.only_3_23).
  reflexivity.
Defined.

(** Where the revision is not recognised no manager comes to exist. *)
Lemma unrecognized_revision_fails (recognized : string -> bool) :
  recognized "3.23" = false ->
  new_SimpleClassicHelperManager recognized =
    Throw (Error "unrecognized protocol version").
Proof.
  intros H. unfold new_SimpleClassicHelperManager, helperCapabilities.
  rewrite H. reflexivity.
Qed.

(** *** Debug names *)

(** C8, as the code has it: the file calls the utility as
    [getDebugName!(...)], and where the binding is [undefined] the call
    raises a [TypeError], here for the class of the scenarios. *)
Lemma getDebugName_throws_without_utility :
  getDebugName None (VObject Scenario.l_D) Scenario.world0 =
    (Throw TypeError, Scenario.world0).
Proof. reflexivity. Qed.

(** C8, amended.  Where the utility is defined, [getDebugName] on a
    definition object is the utility's call on the [prototype] of the
    definition's [class] when that is truthy, and on the definition's own
    [prototype] otherwise, a missing [prototype] being passed as
    [undefined]: the manager adds no failure of its own, so whenever the
    utility returns a name for that value, [getDebugName] returns it. *)
Theorem getDebugName_returns_what_the_utility_returns :
  (forall (f : value -> M string) (d : loc) (w : world),
     getDebugName (Some f) (VObject d) w =
       f (field w (if truthy (field w (VObject d) "class")
                   then field w (VObject d) "class"
                   else VObject d) "prototype") w) /\
  (forall (f : value -> M string) (d : loc) (w : world)
          (name : string) (w' : world),
     f (field w (if truthy (field w (VObject d) "class")
                 then field w (VObject d) "class"
                 else VObject d) "prototype") w = (Ok name, w') ->
     getDebugName (Some f) (VObject d) w = (Ok name, w')).
Proof.
  assert (H : forall (f : value -> M string) (d : loc) (w : world),
            getDebugName (Some f) (VObject d) w =
              f (field w (if truthy (field w (VObject d) "class")
                          then field w (VObject d) "class"
                          else VObject d) "prototype") w).
  { intros f d w. unfold getDebugName, bind, call_utils_getDebugName.
    rewrite get_prop_object.
    set (x := if truthy (field w (VObject d) "class")
              then field w (VObject d) "class" else VObject d).
    assert (Hx : x <> VNull /\ x <> VUndefined).
    { subst x. destruct (truthy (field w (VObject d) "class")) eqn:Ht.
      - split; intros E; rewrite E in Ht; discriminate.
      - split; discriminate. }
    destruct x; simpl; try reflexivity; destruct Hx; congruence. }
  split; [exact H|].
  intros f d w name w' Hf. rewrite H. exact Hf.
Qed.

Example getDebugName_examples :
  fst (getDebugName Scenario.plain_name (VObject Scenario.l_factory_manager)
         Scenario.world0) = Ok "(unknown object)" /\
  fst (getDebugName Scenario.plain_name (VObject Scenario.l_D)
         Scenario.world0) = Ok "(unknown object)" /\
  fst (getDebugName Scenario.plain_name (VObject Scenario.l_owner)
         Scenario.world0) = Ok "undefined" /\
  fst (getDebugName Scenario.plain_name (VNumber 5)
         Scenario.world0) = Ok "undefined".
Proof. vm_compute. auto. Qed.

(** *** recompute and the run loop *)

Lemma recompute_enqueues (this : value) (w : world) :
  recompute this w =
    (Ok tt, with_queue (queue w ++ [DirtyRecomputeTag this]) w).
Proof. reflexivity. Qed.

Lemma times_recompute (n : nat) (this : value) (w : world) :
  times n (recompute this) w =
    (Ok tt, with_queue (queue w ++ replicate n (DirtyRecomputeTag this)) w).
Proof.
  revert w. induction n as [|n IH]; intros w; simpl.
  - rewrite app_nil_r. destruct w; reflexivity.
  - unfold bind. rewrite recompute_enqueues, IH. simpl.
    rewrite <- app_assoc. reflexivity.
Qed.

Lemma remove_dups_replicate {A} `{EqDecision A} (n : nat) (a : A) :
  remove_dups (replicate (S n) a) = [a].
Proof.
  induction n as [|n IH]; [reflexivity|].
  change (replicate (S (S n)) a) with (a :: replicate (S n) a).
  cbn [remove_dups].
  destruct (decide_rel elem_of a (replicate (S n) a)) as [_|Hn]; [exact IH|].
  exfalso. apply Hn. simpl. apply list_elem_of_here.
Qed.

Lemma flush_coalesces (n : nat) (l : loc) (t : tag) (w : world) :
  queue w = [] ->
  recompute_tag_of w l = Some t ->
  flush (snd (times (S n) (recompute (VObject l)) w)) = (Ok tt, dirtied t w).
Proof.
  intros Hq Ht. rewrite times_recompute, Hq. simpl snd.
  unfold flush. cbn [queue with_queue app].
  change (DirtyRecomputeTag (VObject l)
          :: replicate n (DirtyRecomputeTag (VObject l)))
    with (replicate (S n) (DirtyRecomputeTag (VObject l))).
  rewrite remove_dups_replicate. cbn [run_actions run_action]. unfold bind.
  change (recompute_tag_of (with_queue [] (with_queue _ w)) l)
    with (recompute_tag_of w l).
  rewrite Ht. unfold dirtied. simpl. rewrite Hq. reflexivity.
Qed.

(** C3. [recompute] does not dirty the tag: it returns with the store as it
    was but for one more action in the run loop's queue.  After [n] calls,
    for any [n] of one or more, on an instance that holds tag [t], in a turn
    that began with an empty queue, the heap, the tags, the revision counter
    and the log are still those of the start of the turn; the flush then
    dirties [t] once: the log grows by the single entry for [t] and the
    revision counter by one. *)
Theorem recompute_defers_and_coalesces
    (n : nat) (l : loc) (t : tag) (w : world) :
  (1 <= n)%nat ->
  queue w = [] ->
  recompute_tag_of w l = Some t ->
  (forall (this : value) (w0 : world),
     recompute this w0 =
       (Ok tt, with_queue (queue w0 ++ [DirtyRecomputeTag this]) w0)) /\
  (let w1 := snd (times n (recompute (VObject l)) w) in
   heap w1 = heap w /\ tags w1 = tags w /\ clock w1 = clock w /\
   trace w1 = trace w /\
   flush w1 = (Ok tt, dirtied t w) /\
   trace (snd (flush w1)) = trace w ++ [EvDirtyTag t] /\
   clock (snd (flush w1)) = S (clock w) /\
   queue (snd (flush w1)) = []).
Proof.
  intros Hn Hq Ht. split; [exact recompute_enqueues|].
  destruct n as [|n]; [lia|]. cbv zeta.
  rewrite (flush_coalesces n l t w Hq Ht).
  rewrite times_recompute. simpl. repeat split; assumption.
Qed.

(** The witness: three calls on the instance of the reading helper. *)
Lemma recompute_defers_and_coalesces_witness :
  (forall (this : value) (w0 : world),
     recompute this w0 =
       (Ok tt, with_queue (queue w0 ++ [DirtyRecomputeTag this]) w0)) /\
  (let w1 := snd (times 3 (recompute (VObject 18%positive))
                    Scenario.reader_world) in
   heap w1 = heap Scenario.reader_world /\
   tags w1 = tags Scenario.reader_world /\
   clock w1 = clock Scenario.reader_world /\
   trace w1 = trace Scenario.reader_world /\
   flush w1 = (Ok tt, dirtied 1%positive Scenario.reader_world) /\
   trace (snd (flush w1)) =
     trace Scenario.reader_world ++ [EvDirtyTag 1%positive] /\
   clock (snd (flush w1)) = S (clock Scenario.reader_world) /\
   queue (snd (flush w1)) = []).
Proof.
  apply (recompute_defers_and_coalesces 3 18%positive 1%positive
           Scenario.reader_world).
  - lia.
  - vm_compute. reflexivity.
  - vm_compute. reflexivity.
Defined.

(** *** Helper.init and the ownership of tags *)

Section Init.

Variable super_init : value -> value -> M unit.


End Init.

(** ** Further properties of the module *)

(** *** Calls *)

Lemma call_method_object code (l : loc) (k : string) (xs : list value)
    (w : world) :
  call_method code (VObject l) k xs w =
  call_function code (field w (VObject l) k) (VObject l) xs w.
Proof. reflexivity. Qed.

Lemma call_function_not_function code (f this : value) (xs : list value)
    (w : world) :
  typeof w f <> "function" ->
  call_function code f this xs w = (Throw TypeError, w).
Proof.
  intros H. destruct f; try reflexivity.
  unfold call_function. simpl in H.
  destruct (callable (object_at w l)); [congruence|reflexivity].
Qed.

Lemma call_function_function code (f this : value) (xs : list value)
    (w : world) :
  typeof w f = "function" ->
  exists l id, f = VObject l /\ callable (object_at w l) = Some id /\
    call_function code f this xs w = code id this xs w.
Proof.
  intros H. destruct f; simpl in H; try discriminate.
  unfold call_function.
  destruct (callable (object_at w l)) as [id|] eqn:E; [|discriminate].
  exists l, id. auto.
Qed.

Lemma call_method_not_function code (i : value) (k : string)
    (xs : list value) (w : world) :
  typeof w (field w i k) <> "function" ->
  call_method code i k xs w = (Throw TypeError, w).
Proof.
  intros H. unfold call_method, bind.
  destruct i; try reflexivity;
    simpl get_prop; cbv iota beta;
    apply call_function_not_function; exact H.
Qed.

Lemma is_HelperInstance_true (w : world) (i : value) :
  is_HelperInstance w i = true ->
  exists l, i = VObject l /\
    typeof w (field w i "compute") = "function" /\
    typeof w (field w i "destroy") = "function".
Proof.
  intros H. apply is_HelperInstance_shape in H as (Hn & Ho & Hc & Hd).
  destruct i; simpl in Ho; try discriminate; try congruence. eauto.
Qed.

Lemma createHelper_ok code (m : ClassicHelperManager) (d a : value)
    (w : world) (b : ClassicHelperStateBucket) (w1 : world) :
  createHelper code m d a w = (Ok b, w1) ->
  instantiate code m d w = (Ok (instance b), w1) /\ args b = a /\
  is_HelperInstance w1 (instance b) = true.
Proof.
  rewrite createHelper_unfold.
  destruct (instantiate code m d w) as [[i|e] w0]; [|discriminate].
  destruct (is_HelperInstance w0 i) eqn:E; [|discriminate].
  intros H. inversion H; subst. simpl. auto.
Qed.

(** *** The classic manager *)

(** X1. [createHelper] does not look at the arguments: with other arguments
    the outcome is the same but for the [args] field of the bucket.  The
    arguments may even be [null]: the bucket is made all the same, and it is
    [getValue] that then raises a [TypeError], before [compute] is called and
    with the store unchanged. *)
Theorem createHelper_never_reads_args :
  (forall code (m : ClassicHelperManager) (d a a' : value) (w : world),
     createHelper code m d a' w =
       match createHelper code m d a w with
       | (Ok b, w1) => (Ok {| instance := instance b; args := a' |}, w1)
       | (Throw e, w1) => (Throw e, w1)
       end) /\
  (forall code (i : value) (w : world),
     getValue code {| instance := i; args := VNull |} w = (Throw TypeError, w) /\
     getValue code {| instance := i; args := VUndefined |} w =
       (Throw TypeError, w)).
Proof.
  split.
  - intros code m d a a' w. rewrite !createHelper_unfold.
    destruct (instantiate code m d w) as [[i|e] w1]; [|reflexivity].
    destruct (is_HelperInstance w1 i); reflexivity.
  - intros code i w. split; reflexivity.
Qed.

(** X2. [createHelper] itself writes nothing: whether it returns a bucket,
    fails its check or the factory raises, the store it leaves is the store
    the factory call left. *)
Theorem createHelper_store_is_factory_store
    code (m : ClassicHelperManager) (d a : value) (w : world) :
  snd (createHelper code m d a w) = snd (instantiate code m d w).
Proof.
  rewrite createHelper_unfold.
  destruct (instantiate code m d w) as [[i|e] w1]; [|reflexivity].
  destruct (is_HelperInstance w1 i); reflexivity.
Qed.

(** X3. A definition that is not an object, or whose [create] is not a
    function, makes [createHelper] raise a [TypeError] with the store
    unchanged. *)
Theorem createHelper_needs_a_factory
    code (m : ClassicHelperManager) (d a : value) (w : world) :
  (forall l, d <> VObject l) \/ typeof w (field w d "create") <> "function" ->
  createHelper code m d a w = (Throw TypeError, w).
Proof.
  intros H. rewrite createHelper_unfold.
  assert (Hi : instantiate code m d w = (Throw TypeError, w)).
  { destruct d as [| | | | |l];
      try (apply instantiate_non_object; intros l; discriminate).
    destruct H as [H|H]; [exfalso; exact (H l eq_refl)|].
    rewrite instantiate_object. apply call_method_not_function. exact H. }
  rewrite Hi. reflexivity.
Qed.

Lemma createHelper_needs_a_factory_witness :
  createHelper Scenario.code Scenario.manager0
    (VObject Scenario.l_owner) VNull Scenario.world1 =
    (Throw TypeError, Scenario.world1).
Proof.
  apply (createHelper_needs_a_factory Scenario.code Scenario.manager0
           (VObject Scenario.l_owner) VNull Scenario.world1).
  right. vm_compute. discriminate.
Defined.

(** X4. The two readings of [class] differ.  For a definition that has a
    [class] property whose value is falsy, [createHelper] takes the factory
    manager route, [definition.create()] without the owner record, because
    [isFactoryManager] asks whether the property is there; [getDebugName]
    names the definition's own [prototype], because it asks whether the value
    is truthy. *)
Theorem falsy_class_is_read_two_ways
    code u (m : ClassicHelperManager) (d : loc) (v : value) (w : world) :
  props (object_at w d) !! "class" = Some v ->
  truthy v = false ->
  instantiate code m (VObject d) w =
    call_method code (VObject d) "create" [] w /\
  getDebugName u (VObject d) w =
    call_utils_getDebugName u (field w (VObject d) "prototype") w.
Proof.
  intros Hc Ht. split.
  - rewrite instantiate_object. unfold has_class. rewrite Hc.
    rewrite bool_decide_eq_true_2 by eauto. reflexivity.
  - unfold getDebugName, bind. simpl. rewrite Hc. simpl. rewrite Ht.
    reflexivity.
Qed.

Lemma falsy_class_is_read_two_ways_witness :
  instantiate Cases.code Scenario.manager0 (VObject Cases.l_loose)
      Cases.world2 =
    call_method Cases.code (VObject Cases.l_loose) "create" [] Cases.world2 /\
  getDebugName Scenario.plain_name (VObject Cases.l_loose) Cases.world2 =
    call_utils_getDebugName Scenario.plain_name
      (field Cases.world2 (VObject Cases.l_loose) "prototype") Cases.world2.
Proof.
  apply (falsy_class_is_read_two_ways Cases.code Scenario.plain_name
           Scenario.manager0 Cases.l_loose VUndefined Cases.world2).
  - vm_compute. reflexivity.
  - reflexivity.
Defined.

Lemma fresh_unallocated (w : world) : heap w !! fresh (dom (heap w)) = None.
Proof. apply not_elem_of_dom, is_fresh. Qed.

Lemma object_at_insert_eq (l : loc) (o : object) (w : world) :
  object_at (with_heap (<[l := o]> (heap w)) w) l = o.
Proof. unfold object_at. simpl. rewrite lookup_insert_eq. reflexivity. Qed.

Lemma object_at_insert_ne (l l' : loc) (o : object) (w : world) :
  l' <> l -> object_at (with_heap (<[l := o]> (heap w)) w) l' = object_at w l'.
Proof.
  intros H. unfold object_at. simpl. rewrite lookup_insert_ne by congruence.
  reflexivity.
Qed.

(** X5. Every manager has an owner record of its own: of two managers made
    one after the other, each holds a different record, each record carries
    the owner its manager was made for, and making the managers changes no
    object that was there before, no tag, and neither the log nor the
    queue. *)
Theorem managers_have_their_own_owner_record
    recognized (o1 o2 : value) (w : world)
    (m1 : ClassicHelperManager) (w1 : world)
    (m2 : ClassicHelperManager) (w2 : world) :
  new_ClassicHelperManager recognized o1 w = (Ok m1, w1) ->
  new_ClassicHelperManager recognized o2 w1 = (Ok m2, w2) ->
  ownerInjection m1 <> ownerInjection m2 /\
  owner_of w2 (ownerInjection m1) = Some o1 /\
  owner_of w2 (ownerInjection m2) = Some o2 /\
  (forall l, is_Some (heap w !! l) -> object_at w2 l = object_at w l) /\
  tags w2 = tags w /\ trace w2 = trace w /\ queue w2 = queue w.
Proof.
  intros H1 H2.
  apply new_ClassicHelperManager_ok in H1 as (_ & -> & ->).
  apply new_ClassicHelperManager_ok in H2 as (_ & -> & ->).
  set (l1 := fresh (dom (heap w))).
  set (w1 := with_heap (<[l1 := set_owner_slot o1 empty_object]> (heap w)) w).
  set (l2 := fresh (dom (heap w1))).
  assert (Hne : l1 <> l2).
  { intros E. pose proof (fresh_unallocated w1) as Hf. fold l2 in Hf.
    rewrite <- E in Hf. unfold w1 in Hf. simpl in Hf.
    rewrite lookup_insert_eq in Hf. discriminate. }
  cbn [ownerInjection owner_of].
  split; [congruence|].
  split.
  { rewrite object_at_insert_ne by exact Hne. unfold w1.
    rewrite object_at_insert_eq. reflexivity. }
  split; [rewrite object_at_insert_eq; reflexivity|].
  split; [|split; [reflexivity|split; reflexivity]].
  intros l [x Hl].
  assert (l <> l1).
  { intros ->. pose proof (fresh_unallocated w) as Hf. fold l1 in Hf.
    congruence. }
  assert (l <> l2).
  { intros ->. pose proof (fresh_unallocated w1) as Hf. fold l2 in Hf.
    unfold w1 in Hf. simpl in Hf.
    rewrite lookup_insert_ne in Hf by congruence. congruence. }
  rewrite object_at_insert_ne by assumption. unfold w1.
  rewrite object_at_insert_ne by assumption. reflexivity.
Qed.

Lemma managers_have_their_own_owner_record_witness :
  ownerInjection Scenario.manager0 <> ownerInjection Cases.manager1 /\
  owner_of Cases.world3 (ownerInjection Scenario.manager0) =
    Some (VObject Scenario.l_owner) /\
  owner_of Cases.world3 (ownerInjection Cases.manager1) =
    Some (VObject Scenario.l_D) /\
  (forall l, is_Some (heap Scenario.world0 !! l) ->
     object_at Cases.world3 l = object_at Scenario.world0 l) /\
  tags Cases.world3 = tags Scenario.world0 /\
  trace Cases.world3 = trace Scenario.world0 /\
  queue Cases.world3 = queue Scenario.world0.
Proof.
  apply (managers_have_their_own_owner_record Scenario.only_3_23
           (VObject Scenario.l_owner) (VObject Scenario.l_D)
           Scenario.world0 Scenario.manager0 Scenario.world1
           Cases.manager1 Cases.world3).
  - vm_compute. reflexivity.
  - vm_compute. reflexivity.
Defined.

(** *** Wrapper and helper *)

Lemma Wrapper_create_object (d : loc) (w : world) :
  Wrapper_create (VObject d) w =
    (Ok (VObject (fresh (dom (heap w)))),
     with_heap (<[fresh (dom (heap w)) :=
                    literal [("compute", field w (VObject d) "compute")]]>
                  (heap w)) w).
Proof. reflexivity. Qed.

Lemma compute_only_is_no_instance (l : loc) (c : value) (w : world) :
  is_HelperInstance
    (with_heap (<[l := literal [("compute", c)]]> (heap w)) w) (VObject l)
  = false.
Proof.
  unfold is_HelperInstance.
  replace (field _ (VObject l) "destroy") with VUndefined.
  - match goal with |- (if ?c then _ else _) = _ => destruct c end;
      [|reflexivity].
    simpl. apply andb_false_r.
  - unfold field. rewrite object_at_insert_eq. simpl.
    rewrite lookup_insert_ne by discriminate. rewrite lookup_empty.
    reflexivity.
Qed.

(** X6. [Wrapper.create] makes a new object on every call: the object was
    not in the store before, its one property is [compute], with the value
    the wrapper's [compute] has at that moment, and no other object changes;
    a second call makes another object.  Having no [destroy], the object does
    not pass the classic manager's check of a helper instance. *)
Theorem Wrapper_create_makes_new_compute_only_object (d : loc) (w : world) :
  exists l w1,
    Wrapper_create (VObject d) w = (Ok (VObject l), w1) /\
    heap w !! l = None /\
    props (object_at w1 l) =
      {[ "compute" := field w (VObject d) "compute" ]} /\
    (forall l', l' <> l -> object_at w1 l' = object_at w l') /\
    is_HelperInstance w1 (VObject l) = false /\
    exists l2 w2,
      Wrapper_create (VObject d) w1 = (Ok (VObject l2), w2) /\ l2 <> l.
Proof.
  eexists _, _. split; [apply Wrapper_create_object|].
  split; [apply fresh_unallocated|].
  split; [rewrite object_at_insert_eq; reflexivity|].
  split; [intros l' Hl'; apply object_at_insert_ne; exact Hl'|].
  split; [apply compute_only_is_no_instance|].
  eexists _, _. split; [apply Wrapper_create_object|].
  intros E.
  match goal with
  | |- _ => pose proof (fresh_unallocated
              (with_heap (<[fresh (dom (heap w)) :=
                 literal [("compute", field w (VObject d) "compute")]]>
                 (heap w)) w)) as Hf
  end.
  rewrite E in Hf. simpl in Hf. rewrite lookup_insert_eq in Hf. discriminate.
Qed.

(** X7. [helper] does not check what it wraps.  Given a value that is not a
    function, and that has no [call] method either, it still returns a
    definition, and the simple manager still makes a thunk for it, whatever
    the arguments; the [TypeError] comes when [getValue] runs the thunk, and
    leaves the store unchanged. *)
Theorem helper_accepts_a_non_function
    code (fn : value) (w : world) :
  typeof w fn <> "function" ->
  typeof w (field w fn "call") <> "function" ->
  exists d w1, helper fn w = (Ok d, w1) /\
    forall a : value,
      simple_createHelper d a w1 = (Ok (Thunk d a), w1) /\
      simple_getValue code (Thunk d a) w1 = (Throw TypeError, w1).
Proof.
  intros Hf _. destruct (helper_ok fn w) as (l & Hl & H).
  eexists _, _. split; [exact H|].
  intros a. split; [reflexivity|].
  unfold simple_getValue, run_thunk, bind.
  cbn [thunk_definition thunk_args].
  rewrite get_prop_object, field_after_helper.
  destruct (get_prop a "positional" _) as [[p|e] w0] eqn:Hp.
  2:{ apply get_prop_throw in Hp as (-> & -> & _). reflexivity. }
  apply get_prop_ok in Hp as [-> _].
  destruct (get_prop a "named" _) as [[n|e] w0] eqn:Hn.
  2:{ apply get_prop_throw in Hn as (-> & -> & _). reflexivity. }
  apply get_prop_ok in Hn as [-> _].
  apply call_function_not_function.
  destruct fn as [| | | | |l']; simpl; try discriminate.
  destruct (decide (l' = l)) as [->|Hne].
  - rewrite object_at_insert_eq. simpl. discriminate.
  - rewrite object_at_insert_ne by exact Hne. exact Hf.
Qed.

Lemma helper_accepts_a_non_function_witness :
  exists d w1, helper (VNumber 5) Scenario.world0 = (Ok d, w1) /\
    forall a : value,
      simple_createHelper d a w1 = (Ok (Thunk d a), w1) /\
      simple_getValue Scenario.code (Thunk d a) w1 = (Throw TypeError, w1).
Proof.
  apply (helper_accepts_a_non_function Scenario.code (VNumber 5)
           Scenario.world0).
  - discriminate.
  - discriminate.
Defined.

(** X8. Two calls of [helper] on the same function give two definitions,
    both marked as helper factories and both holding the function; the
    second call leaves the first definition as it was. *)
Theorem helper_makes_a_new_definition_each_time (fn : value) (w : world) :
  exists d1 w1 d2 w2,
    helper fn w = (Ok (VObject d1), w1) /\
    helper fn w1 = (Ok (VObject d2), w2) /\
    d1 <> d2 /\
    object_at w2 d1 = object_at w1 d1 /\
    field w2 (VObject d1) "compute" = fn /\
    field w2 (VObject d2) "compute" = fn /\
    field w2 (VObject d1) "isHelperFactory" = VBool true /\
    field w2 (VObject d2) "isHelperFactory" = VBool true.
Proof.
  destruct (helper_ok fn w) as (l1 & Hl1 & H1).
  set (w1 := with_heap (<[l1 := literal [("isHelperFactory", VBool true);
                                          ("compute", fn)]]> (heap w)) w) in *.
  destruct (helper_ok fn w1) as (l2 & Hl2 & H2).
  exists l1, w1, l2. eexists. split; [exact H1|]. split; [exact H2|].
  assert (Hne : l1 <> l2).
  { intros ->. unfold w1 in Hl2. simpl in Hl2.
    rewrite lookup_insert_eq in Hl2. discriminate. }
  split; [exact Hne|].
  split; [apply object_at_insert_ne; exact Hne|].
  unfold field. rewrite object_at_insert_eq.
  rewrite object_at_insert_ne by exact Hne. unfold w1.
  rewrite object_at_insert_eq. simpl. auto.
Qed.

(** *** The simple manager *)


(** X10. [createHelper] of the simple manager evaluates nothing: it returns a
    thunk even when the definition or the arguments are [null] or
    [undefined].  The [TypeError] is raised when [getValue] runs the thunk,
    with the store unchanged and, when it is the arguments that are missing,
    before the function is called. *)
Theorem simple_createHelper_defers_errors
    code (d a : value) (w : world) :
  (d = VNull \/ d = VUndefined) \/ (a = VNull \/ a = VUndefined) ->
  simple_createHelper d a w = (Ok (Thunk d a), w) /\
  simple_getValue code (Thunk d a) w = (Throw TypeError, w).
Proof.
  intros H. split; [reflexivity|].
  unfold simple_getValue, run_thunk, bind. cbn [thunk_definition thunk_args].
  destruct H as [[-> | ->] | [-> | ->]]; try reflexivity;
    destruct d; reflexivity.
Qed.

Lemma simple_createHelper_defers_errors_witness :
  simple_createHelper (VObject Scenario.l_double) VNull Scenario.world0 =
    (Ok (Thunk (VObject Scenario.l_double) VNull), Scenario.world0) /\
  simple_getValue Scenario.code (Thunk (VObject Scenario.l_double) VNull)
    Scenario.world0 = (Throw TypeError, Scenario.world0).
Proof.
  apply (simple_createHelper_defers_errors Scenario.code
           (VObject Scenario.l_double) VNull Scenario.world0).
  right. left. reflexivity.
Defined.

(** *** Helper.init *)

Lemma init_unfold super_init (l : loc) (p : value) (w : world) :
  init super_init (VObject l) p w =
  match super_init (VObject l) p w with
  | (Ok _, w0) =>
      if truthy (field w0 (VObject l) "compute")
      then (Ok tt,
            {| heap := <[l := set_recompute_tag (Some (fresh (dom (tags w0))))
                                (object_at w0 l)]> (heap w0);
               tags := <[fresh (dom (tags w0)) := 0%nat]> (tags w0);
               clock := clock w0;
               trace := trace w0 ++ [EvCreateTag (fresh (dom (tags w0)))];
               queue := queue w0 |})
      else (Throw (AssertionError "expected compute to be defined"),
            {| heap := <[l := set_recompute_tag (Some (fresh (dom (tags w0))))
                                (object_at w0 l)]> (heap w0);
               tags := <[fresh (dom (tags w0)) := 0%nat]> (tags w0);
               clock := clock w0;
               trace := trace w0 ++ [EvCreateTag (fresh (dom (tags w0)))];
               queue := queue w0 |})
  | (Throw e, w0) => (Throw e, w0)
  end.
Proof.
  unfold init, bind.
  destruct (super_init (VObject l) p w) as [[[]|e] w0]; [|reflexivity].
  unfold createTag, update_object, get_prop, assert, ret, throw.
  cbn [heap tags clock trace queue with_heap].
  match goal with
  | |- context [truthy (field ?w1 (VObject l) "compute")] =>
      replace (field w1 (VObject l) "compute")
        with (field w0 (VObject l) "compute")
  end.
  - destruct (truthy _); reflexivity.
  - unfold field, object_at. simpl. rewrite lookup_insert_eq. reflexivity.
Qed.

(** X12. [init] asserts last.  On an object whose [compute] is missing or
    falsy it raises the assertion error, but by then the tag has been made
    and stored: the store it leaves holds the instance with a new tag. *)
Theorem init_fails_after_tagging
    super_init (l : loc) (p : value) (w w0 : world) :
  super_init (VObject l) p w = (Ok tt, w0) ->
  truthy (field w0 (VObject l) "compute") = false ->
  exists w',
    init super_init (VObject l) p w =
      (Throw (AssertionError "expected compute to be defined"), w') /\
    recompute_tag_of w' l = Some (fresh (dom (tags w0))) /\
    tags w0 !! fresh (dom (tags w0)) = None /\
    tags w' !! fresh (dom (tags w0)) = Some 0%nat /\
    trace w' = trace w0 ++ [EvCreateTag (fresh (dom (tags w0)))].
Proof.
  intros Hs Hc. rewrite init_unfold, Hs, Hc. eexists. split; [reflexivity|].
  split.
  { unfold recompute_tag_of, object_at. simpl. rewrite lookup_insert_eq.
    reflexivity. }
  split; [apply not_elem_of_dom, is_fresh|].
  split; [simpl; apply lookup_insert_eq|reflexivity].
Qed.

Lemma init_fails_after_tagging_witness :
  exists w',
    init Scenario.no_init (VObject Cases.l_bare) VUndefined Cases.world2 =
      (Throw (AssertionError "expected compute to be defined"), w') /\
    recompute_tag_of w' Cases.l_bare =
      Some (fresh (dom (tags Cases.world2))) /\
    tags Cases.world2 !! fresh (dom (tags Cases.world2)) = None /\
    tags w' !! fresh (dom (tags Cases.world2)) = Some 0%nat /\
    trace w' = trace Cases.world2 ++
               [EvCreateTag (fresh (dom (tags Cases.world2)))].
Proof.
  apply (init_fails_after_tagging Scenario.no_init Cases.l_bare VUndefined
           Cases.world2 Cases.world2).
  - reflexivity.
  - vm_compute. reflexivity.
Defined.

Lemma typeof_after_tagging (l : loc) (t : option tag) (w w' : world)
    (v : value) :
  heap w' = <[l := set_recompute_tag t (object_at w l)]> (heap w) ->
  typeof w' v = typeof w v.
Proof.
  intros H. destruct v as [| | | | |l']; try reflexivity. simpl.
  unfold object_at. rewrite H.
  destruct (decide (l' = l)) as [->|Hne].
  - rewrite lookup_insert_eq. reflexivity.
  - rewrite lookup_insert_ne by congruence. reflexivity.
Qed.

(** X13. The assertion of [init] is weaker than the check of [createHelper]:
    [init] only asks for a truthy [compute].  An object whose [compute] is
    truthy without being a function is initialised without error, and is
    still not a helper instance for [createHelper]. *)
Theorem init_accepts_what_createHelper_rejects
    super_init (l : loc) (p : value) (w w0 : world) :
  super_init (VObject l) p w = (Ok tt, w0) ->
  truthy (field w0 (VObject l) "compute") = true ->
  typeof w0 (field w0 (VObject l) "compute") <> "function" ->
  exists w',
    init super_init (VObject l) p w = (Ok tt, w') /\
    is_HelperInstance w' (VObject l) = false.
Proof.
  intros Hs Ht Hf. rewrite init_unfold, Hs, Ht. eexists.
  split; [reflexivity|].
  match goal with |- is_HelperInstance ?w1 _ = _ => set (w' := w1) end.
  assert (Hh : heap w' =
               <[l := set_recompute_tag (Some (fresh (dom (tags w0))))
                        (object_at w0 l)]> (heap w0)) by reflexivity.
  assert (Hc : field w' (VObject l) "compute" =
               field w0 (VObject l) "compute").
  { unfold field, object_at. rewrite Hh, lookup_insert_eq. reflexivity. }
  unfold is_HelperInstance.
  destruct (negb _ && _); [|reflexivity].
  rewrite Hc, (typeof_after_tagging _ _ _ _ _ Hh).
  destruct (String.eqb_spec (typeof w0 (field w0 (VObject l) "compute"))
              "function"); [contradiction|reflexivity].
Qed.

Lemma init_accepts_what_createHelper_rejects_witness :
  exists w',
    init Scenario.no_init (VObject Cases.l_numbered) VUndefined Cases.world2 =
      (Ok tt, w') /\
    is_HelperInstance w' (VObject Cases.l_numbered) = false.
Proof.
  apply (init_accepts_what_createHelper_rejects Scenario.no_init
           Cases.l_numbered VUndefined Cases.world2 Cases.world2).
  - reflexivity.
  - vm_compute. reflexivity.
  - vm_compute. discriminate.
Defined.

(** *** getValue and getDestroyable after createHelper *)

(** X14. [getValue] on a bucket whose instance has no [compute] function
    raises a [TypeError], whatever the arguments; nothing is consumed and
    the store is unchanged.  The check of [createHelper] holds when the
    bucket is made only: a bucket whose instance lost its [compute] since
    fails here. *)
Theorem getValue_needs_a_compute_function
    code (i a : value) (w : world) :
  typeof w (field w i "compute") <> "function" ->
  getValue code {| instance := i; args := a |} w = (Throw TypeError, w).
Proof.
  intros H. apply getValue_compute_throws.
  unfold direct_compute, bind. cbn [instance args].
  destruct (get_prop a "positional" w) as [[x|e] w0] eqn:Hp.
  2:{ apply get_prop_throw in Hp as (-> & -> & _). reflexivity. }
  apply get_prop_ok in Hp as [-> _].
  destruct (get_prop a "named" w) as [[y|e] w0] eqn:Hn.
  2:{ apply get_prop_throw in Hn as (-> & -> & _). reflexivity. }
  apply get_prop_ok in Hn as [-> _].
  apply call_method_not_function. exact H.
Qed.

Lemma getValue_needs_a_compute_function_witness :
  getValue Scenario.code
    {| instance := VObject Cases.l_bare; args := VObject Cases.l_args |}
    Cases.world2 = (Throw TypeError, Cases.world2).
Proof.
  apply (getValue_needs_a_compute_function Scenario.code
           (VObject Cases.l_bare) (VObject Cases.l_args) Cases.world2).
  vm_compute. discriminate.
Defined.

(** X15. What [getDestroyable] hands out for a bucket that [createHelper]
    returned is the instance itself, an object, and in the store
    [createHelper] left its [destroy] is a function: calling
    [destroy] on the destroyable there runs that function's body with the
    instance as [this]. *)
Theorem destroyable_of_a_new_bucket_can_be_destroyed
    code (m : ClassicHelperManager) (d a : value) (w : world)
    (b : ClassicHelperStateBucket) (w1 : world) :
  createHelper code m d a w = (Ok b, w1) ->
  exists l fd,
    getDestroyable b = VObject l /\ instance b = VObject l /\
    forall xs : list value,
      call_method code (getDestroyable b) "destroy" xs w1 =
        code fd (VObject l) xs w1.
Proof.
  intros H. apply createHelper_ok in H as (_ & _ & Hi).
  apply is_HelperInstance_true in Hi as (l & Hl & _ & Hd).
  destruct (call_function_function code _ (VObject l) [] w1 Hd)
    as (ld & fd & Hf & Hc & _).
  exists l, fd. unfold getDestroyable. rewrite Hl.
  split; [reflexivity|]. split; [reflexivity|].
  intros xs. rewrite call_method_object. rewrite Hl in Hf. rewrite Hf.
  unfold call_function. rewrite Hc. reflexivity.
Qed.

Lemma destroyable_of_a_new_bucket_can_be_destroyed_witness :
  exists l fd,
    getDestroyable Cases.bucket2 = VObject l /\
    instance Cases.bucket2 = VObject l /\
    forall xs : list value,
      call_method Scenario.code (getDestroyable Cases.bucket2) "destroy" xs
        Cases.world4 =
        Scenario.code fd (VObject l) xs Cases.world4.
Proof.
  apply (destroyable_of_a_new_bucket_can_be_destroyed Scenario.code
           Scenario.manager0 (VObject Scenario.l_D) (VObject Cases.l_args)
           Cases.world2).
  vm_compute. reflexivity.
Defined.

(** X16. The first [getValue] after [createHelper], with an arguments
    object, cannot fail on its own account: the instance's [compute] is a
    function, and [getValue] runs the body of that function with the
    instance as [this] and the two values [args.positional] and [args.named]
    as arguments; when the body returns, its value is returned and the
    instance's tag is consumed, and when it raises, the exception is passed
    on. *)
Theorem getValue_after_createHelper_runs_compute
    code (m : ClassicHelperManager) (d : value) (la : loc) (w : world)
    (b : ClassicHelperStateBucket) (w1 : world) :
  createHelper code m d (VObject la) w = (Ok b, w1) ->
  exists l lc fc,
    instance b = VObject l /\
    field w1 (VObject l) "compute" = VObject lc /\
    callable (object_at w1 lc) = Some fc /\
    getValue code b w1 =
      match code fc (VObject l)
              [field w1 (VObject la) "positional";
               field w1 (VObject la) "named"] w1 with
      | (Ok v, w2) => (Ok v, log (EvConsumeTag (recompute_tag_of w2 l)) w2)
      | (Throw e, w2) => (Throw e, w2)
      end.
Proof.
  intros H. apply createHelper_ok in H as (_ & Ha & Hi).
  apply is_HelperInstance_true in Hi as (l & Hl & Hc & _).
  destruct (call_function_function code _ (VObject l)
              [field w1 (VObject la) "positional";
               field w1 (VObject la) "named"] w1 Hc)
    as (lc & fc & Hf & Hcall & Heq).
  exists l, lc, fc. split; [exact Hl|].
  rewrite Hl in Hf. split; [exact Hf|]. split; [exact Hcall|].
  rewrite getValue_unfold. unfold direct_compute, bind.
  rewrite Ha, Hl. rewrite !get_prop_object. rewrite call_method_object.
  rewrite Hl in Heq. rewrite Heq.
  destruct (code fc (VObject l) _ w1) as [[v|e] w2]; reflexivity.
Qed.

(** The witness: the adding class at a call site with positional [2, 3] and
    [op: 'add']; the body returns 5 and the tag is consumed after it. *)
Lemma getValue_after_createHelper_runs_compute_witness :
  (exists l lc fc,
     instance Cases.bucket5 = VObject l /\
     field Cases.world6 (VObject l) "compute" = VObject lc /\
     callable (object_at Cases.world6 lc) = Some fc /\
     getValue Scenario.code Cases.bucket5 Cases.world6 =
       match Scenario.code fc (VObject l)
               [field Cases.world6 (VObject 17%positive) "positional";
                field Cases.world6 (VObject 17%positive) "named"]
               Cases.world6 with
       | (Ok v, w2) => (Ok v, log (EvConsumeTag (recompute_tag_of w2 l)) w2)
       | (Throw e, w2) => (Throw e, w2)
       end) /\
  fst (getValue Scenario.code Cases.bucket5 Cases.world6) = Ok (VNumber 5) /\
  trace (snd (getValue Scenario.code Cases.bucket5 Cases.world6)) =
    [EvCreateTag 1%positive; EvConsumeTag (Some 1%positive)].
Proof.
  split.
  - apply (getValue_after_createHelper_runs_compute Scenario.code
             Scenario.manager0 (VObject Scenario.l_D) 17%positive
             Cases.world5).
    vm_compute. reflexivity.
  - vm_compute. split; reflexivity.
Defined.

(** X17. A definition whose [create] is the [create] of [Wrapper] and which
    has no [class] is turned down by the classic manager: the factory is
    called, its product has no [destroy], and [createHelper] raises the
    assertion error, leaving the store with the product in it. *)
Theorem classic_manager_rejects_wrapper_product
    code (m : ClassicHelperManager) (d : loc) (a : value) (w : world)
    (lc : loc) (f : fid) :
  has_class w d = false ->
  field w (VObject d) "create" = VObject lc ->
  callable (object_at w lc) = Some f ->
  (forall this xs w', code f this xs w' = Wrapper_create this w') ->
  createHelper code m (VObject d) a w =
    (Throw (AssertionError "expected HelperInstance"),
     snd (Wrapper_create (VObject d) w)).
Proof.
  intros Hc Hf Hcall Hcode. rewrite createHelper_unfold, instantiate_object.
  rewrite Hc, call_method_object, Hf. unfold call_function.
  rewrite Hcall, Hcode, Wrapper_create_object.
  rewrite compute_only_is_no_instance. reflexivity.
Qed.

Lemma classic_manager_rejects_wrapper_product_witness :
  createHelper Cases.code Scenario.manager0 (VObject Cases.l_wrapper) VNull
    Cases.world2 =
    (Throw (AssertionError "expected HelperInstance"),
     snd (Wrapper_create (VObject Cases.l_wrapper) Cases.world2)).
Proof.
  apply (classic_manager_rejects_wrapper_product Cases.code Scenario.manager0
           Cases.l_wrapper VNull Cases.world2 Cases.l_wrapper_create 20%nat).
  - vm_compute. reflexivity.
  - vm_compute. reflexivity.
  - vm_compute. reflexivity.
  - reflexivity.
Defined.

(** *** Two call sites of a class based definition *)




Lemma object_at_same (w w' : world) (l : loc) :
  heap w' !! l = heap w !! l -> object_at w' l = object_at w l.
Proof. intros H. unfold object_at. rewrite H. reflexivity. Qed.

Lemma field_same_outside (l1 : loc) (w w' : world) (v : value) (k : string) :
  same_outside l1 w w' -> v <> VObject l1 -> field w' v k = field w v k.
Proof.
  intros [Hh _] Hv. destruct v as [| | | | |l]; try reflexivity.
  unfold field. rewrite (object_at_same w w' l); [reflexivity|].
  apply Hh. congruence.
Qed.








(** In the scenario of the adding class the provisos hold: [destroy] of the
    first instance writes to that instance only, the body of the adding
    [compute] is local, and the second call site reads 5 before and after
    the first instance is destroyed and its tag dirtied. *)
Example adder_sites_do_not_interfere :
  same_outside 50%positive (snd Sites.second_site)
    (snd (call_method Sites.code (VObject 50%positive) "destroy" []
            (snd Sites.second_site))) /\
  local_compute Sites.code 50%positive 1%nat (VObject 51%positive)
    [VObject Sites.l_positional; VObject Sites.l_named] /\
  fst (Sites.two_call_sites Sites.l_Adder Sites.world0) =
    Ok (VNumber 5, VNumber 5).
Proof.
  split; [|split].
  - assert (Hh : heap (snd (call_method Sites.code (VObject 50%positive)
                              "destroy" [] (snd Sites.second_site))) =
                 <[50%positive :=
                     set_prop "isDestroyed" (VBool true)
                       (object_at (snd Sites.second_site) 50%positive)]>
                   (heap (snd Sites.second_site)))
      by (vm_compute; reflexivity).
    split.
    + intros l' Hl'. rewrite Hh. apply lookup_insert_ne. congruence.
    + intros t _. reflexivity.
  - intros wa wb Hs.
    assert (Hf : forall l k, l <> 50%positive ->
                   field wb (VObject l) k = field wa (VObject l) k).
    { intros l k Hl. apply (field_same_outside 50%positive); [exact Hs|].
      congruence. }
    unfold Sites.code, Scenario.code, Scenario.nth_arg, bind. cbn [nth].
    rewrite !get_prop_object.
    rewrite !(Hf Sites.l_positional) by discriminate.
    rewrite !(Hf Sites.l_named) by discriminate.
    destruct (bool_decide _);
      destruct (field wa (VObject Sites.l_positional) "0");
      destruct (field wa (VObject Sites.l_positional) "1"); reflexivity.
  - vm_compute. reflexivity.
Qed.
